(** * KVM/arm64 exit handling: arch/arm64/kvm/handle_exit.c

    A shallow embedding of the trap-dispatch code of the arm64 KVM port
    with nested-virtualization support, and the properties of it that the
    design document states.

    Machine integers are [Z] with the wrap-around written out.  The vcpu and
    the run structure are records, the C functions are computations in a
    small state monad over both of them plus a call log.  Functions that
    live in other translation units (PSCI, fault injection, nested helpers,
    the scheduler, the coprocessor and abort handlers) are taken as an
    interface, the class [Collaborators]. *)

From stdpp Require Import list.
From Stdlib Require Import ZArith Lia Bool.

Local Open Scope Z_scope.

(** ** Machine integers *)

Definition u8  (x : Z) : Z := x mod 2 ^ 8.
Definition u32 (x : Z) : Z := x mod 2 ^ 32.
Definition u64 (x : Z) : Z := x mod 2 ^ 64.

(** ** Constants of the headers

    The headers asm/esr.h, asm/ptrace.h, asm/kvm_arm.h, asm/kvm_asm.h,
    linux/kvm.h and linux/kvm_host.h are not among the sources.  The
    constants below carry the values those headers give them, which for the
    syndrome and status registers is the ARMv8 architectural encoding. *)

Definition ESR_ELx_EC_WFx         : Z := 0x01.
Definition ESR_ELx_EC_CP15_32     : Z := 0x03.
Definition ESR_ELx_EC_CP15_64     : Z := 0x04.
Definition ESR_ELx_EC_CP14_MR     : Z := 0x05.
Definition ESR_ELx_EC_CP14_LS     : Z := 0x06.
Definition ESR_ELx_EC_FP_ASIMD    : Z := 0x07.
Definition ESR_ELx_EC_CP14_64     : Z := 0x0C.
Definition ESR_ELx_EC_HVC32       : Z := 0x12.
Definition ESR_ELx_EC_SMC32       : Z := 0x13.
Definition ESR_ELx_EC_HVC64       : Z := 0x16.
Definition ESR_ELx_EC_SMC64       : Z := 0x17.
Definition ESR_ELx_EC_SYS64       : Z := 0x18.
Definition ESR_ELx_EC_ERET        : Z := 0x1A.
Definition ESR_ELx_EC_IABT_LOW    : Z := 0x20.
Definition ESR_ELx_EC_DABT_LOW    : Z := 0x24.
Definition ESR_ELx_EC_BREAKPT_LOW : Z := 0x30.
Definition ESR_ELx_EC_SOFTSTP_LOW : Z := 0x32.
Definition ESR_ELx_EC_WATCHPT_LOW : Z := 0x34.
Definition ESR_ELx_EC_BKPT32      : Z := 0x38.
Definition ESR_ELx_EC_BRK64       : Z := 0x3C.
Definition ESR_ELx_EC_MAX         : Z := 0x3F.

Definition ESR_ELx_EC_SHIFT : Z := 26.
Definition ESR_ELx_EC_MASK  : Z := Z.shiftl 0x3F ESR_ELx_EC_SHIFT.
Definition ESR_ELx_EC (esr : Z) : Z :=
  Z.shiftr (Z.land esr ESR_ELx_EC_MASK) ESR_ELx_EC_SHIFT.

Definition ESR_ELx_IL           : Z := Z.shiftl 1 25.
Definition ESR_ELx_WFx_ISS_WFE  : Z := Z.shiftl 1 0.
Definition ESR_ELx_xVC_IMM_MASK : Z := Z.shiftl 1 16 - 1.

Definition PSR_MODE_EL1t : Z := 0x4.
Definition PSR_MODE_EL1h : Z := 0x5.
Definition PSR_MODE_EL2t : Z := 0x8.
Definition PSR_MODE_EL2h : Z := 0x9.
Definition PSR_MODE_MASK : Z := 0xf.

Definition HCR_TSC      : Z := Z.shiftl 1 19.
Definition HCR_TGE      : Z := Z.shiftl 1 27.
Definition HCR_E2H      : Z := Z.shiftl 1 34.
Definition CPTR_EL2_TFP : Z := Z.shiftl 1 10.

Definition ARM_EXIT_WITH_SERROR_BIT : Z := 31.
Definition ARM_EXCEPTION_IRQ        : Z := 0.
Definition ARM_EXCEPTION_EL1_SERROR : Z := 1.
Definition ARM_EXCEPTION_TRAP       : Z := 2.
Definition ARM_EXCEPTION_HYP_GONE   : Z := 0xbadca11.

Definition ARM_SERROR_PENDING (x : Z) : bool :=
  negb (Z.land (u32 x) (Z.shiftl 1 ARM_EXIT_WITH_SERROR_BIT) =? 0).
Definition ARM_EXCEPTION_CODE (x : Z) : Z :=
  Z.land (u32 x) (u32 (Z.lnot (Z.shiftl 1 ARM_EXIT_WITH_SERROR_BIT))).

Definition KVM_EXIT_DEBUG          : Z := 4.
Definition KVM_EXIT_FAIL_ENTRY     : Z := 9.
Definition KVM_EXIT_INTERNAL_ERROR : Z := 17.

Definition KVM_REQUEST_MASK : Z := 0xff.
Definition KVM_REQ_UNHALT   : Z := 3.
Definition EINVAL           : Z := 22.

(** ** The vcpu and the run structure

    Only the members that handle_exit.c reads or writes are kept. *)

Record kvm_vcpu_stat := {
  hvc_exit_stat : Z;
  wfe_exit_stat : Z;
  wfi_exit_stat : Z
}.

Record kvm_vcpu := {
  regs_pc     : Z;              (* *vcpu_pc(vcpu) *)
  regs_pstate : Z;              (* *vcpu_cpsr(vcpu) *)
  regs_x0     : Z;              (* vcpu_get_reg(vcpu, 0) *)
  fault_esr_el2 : Z;            (* vcpu->arch.fault.esr_el2 *)
  fault_far_el2 : Z;            (* vcpu->arch.fault.far_el2 *)
  sys_HCR_EL2   : Z;            (* vcpu_sys_reg(vcpu, HCR_EL2) *)
  sys_CPTR_EL2  : Z;            (* vcpu_sys_reg(vcpu, CPTR_EL2) *)
  sreg_ELR_EL2  : Z;            (* vcpu_el2_sreg(vcpu, ELR_EL2) *)
  sreg_SPSR_EL2 : Z;            (* vcpu_el2_sreg(vcpu, SPSR_EL2) *)
  stat     : kvm_vcpu_stat;     (* vcpu->stat *)
  requests : Z;                 (* vcpu->requests *)
  exclusive_pending : bool      (* pending exclusive access, see kvm_skip_instr *)
}.

Record kvm_run := {
  exit_reason    : Z;           (* run->exit_reason *)
  debug_arch_hsr : Z;           (* run->debug.arch.hsr *)
  debug_arch_far : Z            (* run->debug.arch.far *)
}.

Definition set_pc (x : Z) (v : kvm_vcpu) : kvm_vcpu :=
  {| regs_pc := x; regs_pstate := regs_pstate v; regs_x0 := regs_x0 v;
     fault_esr_el2 := fault_esr_el2 v; fault_far_el2 := fault_far_el2 v;
     sys_HCR_EL2 := sys_HCR_EL2 v; sys_CPTR_EL2 := sys_CPTR_EL2 v;
     sreg_ELR_EL2 := sreg_ELR_EL2 v; sreg_SPSR_EL2 := sreg_SPSR_EL2 v;
     stat := stat v; requests := requests v;
     exclusive_pending := exclusive_pending v |}.

Definition set_cpsr (x : Z) (v : kvm_vcpu) : kvm_vcpu :=
  {| regs_pc := regs_pc v; regs_pstate := x; regs_x0 := regs_x0 v;
     fault_esr_el2 := fault_esr_el2 v; fault_far_el2 := fault_far_el2 v;
     sys_HCR_EL2 := sys_HCR_EL2 v; sys_CPTR_EL2 := sys_CPTR_EL2 v;
     sreg_ELR_EL2 := sreg_ELR_EL2 v; sreg_SPSR_EL2 := sreg_SPSR_EL2 v;
     stat := stat v; requests := requests v;
     exclusive_pending := exclusive_pending v |}.

Definition set_stat (s : kvm_vcpu_stat) (v : kvm_vcpu) : kvm_vcpu :=
  {| regs_pc := regs_pc v; regs_pstate := regs_pstate v; regs_x0 := regs_x0 v;
     fault_esr_el2 := fault_esr_el2 v; fault_far_el2 := fault_far_el2 v;
     sys_HCR_EL2 := sys_HCR_EL2 v; sys_CPTR_EL2 := sys_CPTR_EL2 v;
     sreg_ELR_EL2 := sreg_ELR_EL2 v; sreg_SPSR_EL2 := sreg_SPSR_EL2 v;
     stat := s; requests := requests v;
     exclusive_pending := exclusive_pending v |}.

Definition set_requests (x : Z) (v : kvm_vcpu) : kvm_vcpu :=
  {| regs_pc := regs_pc v; regs_pstate := regs_pstate v; regs_x0 := regs_x0 v;
     fault_esr_el2 := fault_esr_el2 v; fault_far_el2 := fault_far_el2 v;
     sys_HCR_EL2 := sys_HCR_EL2 v; sys_CPTR_EL2 := sys_CPTR_EL2 v;
     sreg_ELR_EL2 := sreg_ELR_EL2 v; sreg_SPSR_EL2 := sreg_SPSR_EL2 v;
     stat := stat v; requests := x;
     exclusive_pending := exclusive_pending v |}.

Definition set_exclusive_pending (b : bool) (v : kvm_vcpu) : kvm_vcpu :=
  {| regs_pc := regs_pc v; regs_pstate := regs_pstate v; regs_x0 := regs_x0 v;
     fault_esr_el2 := fault_esr_el2 v; fault_far_el2 := fault_far_el2 v;
     sys_HCR_EL2 := sys_HCR_EL2 v; sys_CPTR_EL2 := sys_CPTR_EL2 v;
     sreg_ELR_EL2 := sreg_ELR_EL2 v; sreg_SPSR_EL2 := sreg_SPSR_EL2 v;
     stat := stat v; requests := requests v;
     exclusive_pending := b |}.

(** [vcpu->stat.hvc_exit_stat++] and its two siblings; the counters are u64. *)
Definition hvc_exit_stat_incr (v : kvm_vcpu) : kvm_vcpu :=
  set_stat {| hvc_exit_stat := u64 (hvc_exit_stat (stat v) + 1);
              wfe_exit_stat := wfe_exit_stat (stat v);
              wfi_exit_stat := wfi_exit_stat (stat v) |} v.

Definition wfe_exit_stat_incr (v : kvm_vcpu) : kvm_vcpu :=
  set_stat {| hvc_exit_stat := hvc_exit_stat (stat v);
              wfe_exit_stat := u64 (wfe_exit_stat (stat v) + 1);
              wfi_exit_stat := wfi_exit_stat (stat v) |} v.

Definition wfi_exit_stat_incr (v : kvm_vcpu) : kvm_vcpu :=
  set_stat {| hvc_exit_stat := hvc_exit_stat (stat v);
              wfe_exit_stat := wfe_exit_stat (stat v);
              wfi_exit_stat := u64 (wfi_exit_stat (stat v) + 1) |} v.

Definition set_exit_reason (x : Z) (r : kvm_run) : kvm_run :=
  {| exit_reason := x; debug_arch_hsr := debug_arch_hsr r;
     debug_arch_far := debug_arch_far r |}.

Definition set_debug_arch_hsr (x : Z) (r : kvm_run) : kvm_run :=
  {| exit_reason := exit_reason r; debug_arch_hsr := x;
     debug_arch_far := debug_arch_far r |}.

Definition set_debug_arch_far (x : Z) (r : kvm_run) : kvm_run :=
  {| exit_reason := exit_reason r; debug_arch_hsr := debug_arch_hsr r;
     debug_arch_far := x |}.

(** ** Accessors of asm/kvm_emulate.h

    The header is not among the sources either; the accessors read the
    syndrome with the masks above.  The predicates that the nested
    virtualization support adds to it are part of [Collaborators] below. *)

Definition kvm_vcpu_get_hsr (v : kvm_vcpu) : Z := fault_esr_el2 v.

Definition kvm_vcpu_hvc_get_imm (v : kvm_vcpu) : Z :=
  Z.land (kvm_vcpu_get_hsr v) ESR_ELx_xVC_IMM_MASK.

Definition kvm_vcpu_trap_il_is32bit (v : kvm_vcpu) : bool :=
  negb (Z.land (kvm_vcpu_get_hsr v) ESR_ELx_IL =? 0).

(** Modelled from the spec: kvm_skip_instr, the instruction-skip primitive of
    asm/kvm_emulate.h, which is not among the sources.  "skip(vcpu,
    is_32bit) advances PC by 4 or 2 respectively and clears any
    pending-exclusive-access state." *)
Definition kvm_skip_instr (is_wide_instr : bool) (v : kvm_vcpu) : kvm_vcpu :=
  set_exclusive_pending false
    (set_pc (u64 (regs_pc v + (if is_wide_instr then 4 else 2))) v).

(** [kvm_clear_request(req, vcpu)] is
    [clear_bit(req & KVM_REQUEST_MASK, &vcpu->requests)]. *)
Definition kvm_clear_request (req : Z) (v : kvm_vcpu) : kvm_vcpu :=
  set_requests (Z.clearbit (requests v) (Z.land req KVM_REQUEST_MASK)) v.

(** ** The call log *)

Inductive callee :=
  | c_kvm_psci_call
  | c_kvm_inject_undefined
  | c_kvm_inject_vabt
  | c_kvm_inject_nested_sync (esr_el2 : Z)
  | c_handle_hvc_nested
  | c_handle_wfx_nested (is_wfe : bool)
  | c_kvm_vcpu_on_spin
  | c_kvm_vcpu_block
  | c_kvm_clear_request (req : Z)
  | c_kvm_skip_instr (is_wide_instr : bool)
  | c_kvm_handle_cp15_32
  | c_kvm_handle_cp15_64
  | c_kvm_handle_cp14_32
  | c_kvm_handle_cp14_load_store
  | c_kvm_handle_cp14_64
  | c_kvm_handle_sys
  | c_kvm_handle_guest_abort.

Inductive event :=
  | Call (c : callee)
  | Lookup_arm_exit_handlers (hsr_ec : Z)
  | trace_kvm_hvc_arm64 (vcpu_pc r0 imm : Z)
  | trace_kvm_wfx_arm64 (vcpu_pc : Z) (is_wfe : bool)
  | trace_kvm_nested_eret (elr_el2 spsr_el2 : Z)
  | kvm_err_unhandled_case (hsr : Z)
  | kvm_pr_unimpl_unknown_ec (hsr : Z)
  | kvm_pr_unimpl_unsupported (exception_index : Z).


(** ** State and the monad of the handlers

    A handler receives the vcpu and the run structure by pointer and
    returns an [int]; here it is a function from the state of both (and the
    log of the calls made so far) to the returned value and the new state. *)

Record world := {
  w_vcpu : kvm_vcpu;
  w_run  : kvm_run;
  w_log  : list event
}.

Definition M (A : Type) : Type := world -> A * world.

Definition ret {A} (a : A) : M A := fun w => (a, w).

Definition bind {A B} (m : M A) (k : A -> M B) : M B :=
  fun w => k (fst (m w)) (snd (m w)).

Declare Scope exit_scope.
Delimit Scope exit_scope with exit.
Notation "x <- m ;; k" := (bind m (fun x => k))
  (at level 100, m at next level, right associativity) : exit_scope.
Notation "m ;; k" := (bind m (fun _ => k))
  (at level 100, right associativity) : exit_scope.
Local Open Scope exit_scope.

Definition vcpu_read {A} (f : kvm_vcpu -> A) : M A :=
  fun w => (f (w_vcpu w), w).

Definition vcpu_update (f : kvm_vcpu -> kvm_vcpu) : M unit :=
  fun w => (tt, {| w_vcpu := f (w_vcpu w); w_run := w_run w; w_log := w_log w |}).

Definition run_update (f : kvm_run -> kvm_run) : M unit :=
  fun w => (tt, {| w_vcpu := w_vcpu w; w_run := f (w_run w); w_log := w_log w |}).

Definition emit (e : event) : M unit :=
  fun w => (tt, {| w_vcpu := w_vcpu w; w_run := w_run w; w_log := w_log w ++ [e] |}).

(** A call of a function of another translation unit on the vcpu: the call
    is logged, then the function runs. *)
Definition extern {A} (c : callee) (f : kvm_vcpu -> A * kvm_vcpu) : M A :=
  emit (Call c) ;;
  fun w => (fst (f (w_vcpu w)),
            {| w_vcpu := snd (f (w_vcpu w)); w_run := w_run w; w_log := w_log w |}).

Definition extern_ (c : callee) (f : kvm_vcpu -> kvm_vcpu) : M unit :=
  emit (Call c) ;; vcpu_update f.

(** The same for a handler of another translation unit, which also gets the
    run structure. *)
Definition extern_handler (c : callee)
    (f : kvm_vcpu -> kvm_run -> Z * (kvm_vcpu * kvm_run)) : M Z :=
  emit (Call c) ;;
  fun w => let r := f (w_vcpu w) (w_run w) in
           (fst r, {| w_vcpu := fst (snd r); w_run := snd (snd r); w_log := w_log w |}).

(** ** Functions of other translation units *)

Class Collaborators := {
  (* the build configuration *)
  CONFIG_KVM_ARM_NESTED_PV : bool;
  (* asm/kvm_emulate.h *)
  kvm_condition_valid : kvm_vcpu -> bool;
  nested_virt_in_use  : kvm_vcpu -> bool;
  forward_nv_traps    : kvm_vcpu -> bool;
  vcpu_mode_el1       : kvm_vcpu -> bool;
  vcpu_el2_e2h_is_set : kvm_vcpu -> bool;
  vcpu_el2_tge_is_set : kvm_vcpu -> bool;
  (* fault injection *)
  kvm_inject_undefined   : kvm_vcpu -> kvm_vcpu;
  kvm_inject_vabt        : kvm_vcpu -> kvm_vcpu;
  kvm_inject_nested_sync : kvm_vcpu -> Z -> Z * kvm_vcpu;
  (* PSCI and the nested helpers *)
  kvm_psci_call     : kvm_vcpu -> Z * kvm_vcpu;
  handle_hvc_nested : kvm_vcpu -> Z * kvm_vcpu;
  handle_wfx_nested : kvm_vcpu -> bool -> Z * kvm_vcpu;
  (* the scheduler side *)
  kvm_vcpu_on_spin : kvm_vcpu -> kvm_vcpu;
  kvm_vcpu_block   : kvm_vcpu -> kvm_vcpu;
  (* handlers of the table that are defined elsewhere *)
  kvm_handle_cp15_32         : kvm_vcpu -> kvm_run -> Z * (kvm_vcpu * kvm_run);
  kvm_handle_cp15_64         : kvm_vcpu -> kvm_run -> Z * (kvm_vcpu * kvm_run);
  kvm_handle_cp14_32         : kvm_vcpu -> kvm_run -> Z * (kvm_vcpu * kvm_run);
  kvm_handle_cp14_load_store : kvm_vcpu -> kvm_run -> Z * (kvm_vcpu * kvm_run);
  kvm_handle_cp14_64         : kvm_vcpu -> kvm_run -> Z * (kvm_vcpu * kvm_run);
  kvm_handle_sys             : kvm_vcpu -> kvm_run -> Z * (kvm_vcpu * kvm_run);
  kvm_handle_guest_abort     : kvm_vcpu -> kvm_run -> Z * (kvm_vcpu * kvm_run)
}.

(** The identities of the handlers, the values of type [exit_handle_fn]. *)
Inductive exit_handle_fn :=
  | fn_kvm_handle_unknown_ec
  | fn_kvm_handle_wfx
  | fn_kvm_handle_cp15_32
  | fn_kvm_handle_cp15_64
  | fn_kvm_handle_cp14_32
  | fn_kvm_handle_cp14_load_store
  | fn_kvm_handle_cp14_64
  | fn_handle_hvc
  | fn_handle_smc
  | fn_kvm_handle_sys
  | fn_kvm_handle_eret
  | fn_kvm_handle_guest_abort
  | fn_kvm_handle_guest_debug
  | fn_kvm_handle_fpasimd.

#[global] Instance exit_handle_fn_eq_dec : EqDecision exit_handle_fn.
Proof. solve_decision. Defined.

(** ** The table

    [arm_exit_handlers] is an array with designated initialisers: the range
    [0 ... ESR_ELx_EC_MAX] first, then one entry per class, a later
    initialiser overriding an earlier one. *)

Definition arm_exit_handlers_designated : list (Z * exit_handle_fn) :=
  [ (ESR_ELx_EC_WFx,         fn_kvm_handle_wfx);
    (ESR_ELx_EC_CP15_32,     fn_kvm_handle_cp15_32);
    (ESR_ELx_EC_CP15_64,     fn_kvm_handle_cp15_64);
    (ESR_ELx_EC_CP14_MR,     fn_kvm_handle_cp14_32);
    (ESR_ELx_EC_CP14_LS,     fn_kvm_handle_cp14_load_store);
    (ESR_ELx_EC_CP14_64,     fn_kvm_handle_cp14_64);
    (ESR_ELx_EC_HVC32,       fn_handle_hvc);
    (ESR_ELx_EC_SMC32,       fn_handle_smc);
    (ESR_ELx_EC_HVC64,       fn_handle_hvc);
    (ESR_ELx_EC_SMC64,       fn_handle_smc);
    (ESR_ELx_EC_SYS64,       fn_kvm_handle_sys);
    (ESR_ELx_EC_ERET,        fn_kvm_handle_eret);
    (ESR_ELx_EC_IABT_LOW,    fn_kvm_handle_guest_abort);
    (ESR_ELx_EC_DABT_LOW,    fn_kvm_handle_guest_abort);
    (ESR_ELx_EC_SOFTSTP_LOW, fn_kvm_handle_guest_debug);
    (ESR_ELx_EC_WATCHPT_LOW, fn_kvm_handle_guest_debug);
    (ESR_ELx_EC_BREAKPT_LOW, fn_kvm_handle_guest_debug);
    (ESR_ELx_EC_BKPT32,      fn_kvm_handle_guest_debug);
    (ESR_ELx_EC_BRK64,       fn_kvm_handle_guest_debug);
    (ESR_ELx_EC_FP_ASIMD,    fn_kvm_handle_fpasimd) ].

Definition arm_exit_handlers : list exit_handle_fn :=
  foldl (fun tbl d => <[Z.to_nat (fst d) := snd d]> tbl)
        (replicate (Z.to_nat (ESR_ELx_EC_MAX + 1)) fn_kvm_handle_unknown_ec)
        arm_exit_handlers_designated.

Section handlers.
Context `{!Collaborators}.

Definition inject_undefined : M unit :=
  extern_ c_kvm_inject_undefined kvm_inject_undefined.

Definition inject_vabt : M unit :=
  extern_ c_kvm_inject_vabt kvm_inject_vabt.

Definition inject_nested_sync : M Z :=
  esr_el2 <- vcpu_read kvm_vcpu_get_hsr ;;
  extern (c_kvm_inject_nested_sync esr_el2)
         (fun v => kvm_inject_nested_sync v esr_el2).

(** [kvm_skip_instr(vcpu, kvm_vcpu_trap_il_is32bit(vcpu))] *)
Definition skip_instr : M unit :=
  is_wide_instr <- vcpu_read kvm_vcpu_trap_il_is32bit ;;
  extern_ (c_kvm_skip_instr is_wide_instr) (kvm_skip_instr is_wide_instr).

(** The part of [handle_hvc] after the nested block. *)
Definition handle_hvc_psci : M Z :=
  r <- extern c_kvm_psci_call kvm_psci_call ;;
  if r <? 0 then inject_undefined ;; ret 1
  else ret r.

Definition handle_hvc : M Z :=
  vcpu_pc <- vcpu_read regs_pc ;;
  r0 <- vcpu_read regs_x0 ;;
  imm <- vcpu_read kvm_vcpu_hvc_get_imm ;;
  emit (trace_kvm_hvc_arm64 vcpu_pc r0 imm) ;;
  vcpu_update hvc_exit_stat_incr ;;
  nested <- vcpu_read nested_virt_in_use ;;
  if nested then
    if negb CONFIG_KVM_ARM_NESTED_PV then
      inject_nested_sync ;; ret 1
    else
      r <- extern c_handle_hvc_nested handle_hvc_nested ;;
      if (r <? 0) && negb (r =? - EINVAL) then ret r
      else if r >=? 0 then ret r
      else handle_hvc_psci
  else handle_hvc_psci.

Definition handle_smc : M Z :=
  fwd <- vcpu_read forward_nv_traps ;;
  hcr_el2 <- vcpu_read sys_HCR_EL2 ;;
  if fwd && negb (Z.land hcr_el2 HCR_TSC =? 0) then inject_nested_sync
  else
    imm <- vcpu_read kvm_vcpu_hvc_get_imm ;;
    if negb (imm =? 0) then inject_undefined ;; ret 1
    else
      r <- extern c_kvm_psci_call kvm_psci_call ;;
      if r <? 0 then inject_undefined ;; ret 1
      else skip_instr ;; ret r.

Definition kvm_handle_fpasimd : M Z :=
  cptr_el2 <- vcpu_read sys_CPTR_EL2 ;;
  if negb (Z.land cptr_el2 CPTR_EL2_TFP =? 0) then inject_nested_sync
  else inject_undefined ;; ret 1.

(** The part of [kvm_handle_wfx] after the nested block. *)
Definition kvm_handle_wfx_local (is_wfe : bool) : M Z :=
  vcpu_pc <- vcpu_read regs_pc ;;
  (if is_wfe then
     emit (trace_kvm_wfx_arm64 vcpu_pc true) ;;
     vcpu_update wfe_exit_stat_incr ;;
     extern_ c_kvm_vcpu_on_spin kvm_vcpu_on_spin
   else
     emit (trace_kvm_wfx_arm64 vcpu_pc false) ;;
     vcpu_update wfi_exit_stat_incr ;;
     extern_ c_kvm_vcpu_block kvm_vcpu_block ;;
     extern_ (c_kvm_clear_request KVM_REQ_UNHALT)
             (kvm_clear_request KVM_REQ_UNHALT)) ;;
  skip_instr ;;
  ret 1.

Definition kvm_handle_wfx : M Z :=
  hsr <- vcpu_read kvm_vcpu_get_hsr ;;
  let is_wfe := negb (Z.land hsr ESR_ELx_WFx_ISS_WFE =? 0) in
  nested <- vcpu_read nested_virt_in_use ;;
  if nested then
    r <- extern (c_handle_wfx_nested is_wfe)
                (fun v => handle_wfx_nested v is_wfe) ;;
    if (r <? 0) && negb (r =? - EINVAL) then ret r
    else if r >=? 0 then ret r
    else kvm_handle_wfx_local is_wfe
  else kvm_handle_wfx_local is_wfe.

Definition is_debug_class (ec : Z) : bool :=
  (ec =? ESR_ELx_EC_SOFTSTP_LOW) || (ec =? ESR_ELx_EC_BREAKPT_LOW) ||
  (ec =? ESR_ELx_EC_BKPT32) || (ec =? ESR_ELx_EC_BRK64).

Definition kvm_handle_guest_debug : M Z :=
  hsr <- vcpu_read kvm_vcpu_get_hsr ;;
  run_update (set_exit_reason KVM_EXIT_DEBUG) ;;
  run_update (set_debug_arch_hsr hsr) ;;
  if ESR_ELx_EC hsr =? ESR_ELx_EC_WATCHPT_LOW then
    far_el2 <- vcpu_read fault_far_el2 ;;
    run_update (set_debug_arch_far far_el2) ;;
    ret 0
  else if is_debug_class (ESR_ELx_EC hsr) then ret 0
  else
    emit (kvm_err_unhandled_case hsr) ;;
    ret (-1).

Definition kvm_handle_unknown_ec : M Z :=
  hsr <- vcpu_read kvm_vcpu_get_hsr ;;
  emit (kvm_pr_unimpl_unknown_ec hsr) ;;
  inject_undefined ;;
  ret 1.

Definition kvm_handle_eret : M Z :=
  elr_el2 <- vcpu_read sreg_ELR_EL2 ;;
  spsr_el2 <- vcpu_read sreg_SPSR_EL2 ;;
  emit (trace_kvm_nested_eret elr_el2 spsr_el2) ;;
  fwd <- vcpu_read forward_nv_traps ;;
  if fwd then inject_nested_sync
  else
    vcpu_update (set_pc elr_el2) ;;
    vcpu_update (set_cpsr spsr_el2) ;;
    el1 <- vcpu_read vcpu_mode_el1 ;;
    e2h <- vcpu_read vcpu_el2_e2h_is_set ;;
    tge <- vcpu_read vcpu_el2_tge_is_set ;;
    (if el1 && e2h && tge then
       cpsr <- vcpu_read regs_pstate ;;
       let mode := u32 (Z.land cpsr PSR_MODE_MASK) in
       vcpu_update (fun v => set_cpsr (Z.land (regs_pstate v) (u64 (Z.lnot PSR_MODE_MASK))) v) ;;
       if mode =? PSR_MODE_EL1h then
         vcpu_update (fun v => set_cpsr (Z.lor (regs_pstate v) PSR_MODE_EL2h) v)
       else
         vcpu_update (fun v => set_cpsr (Z.lor (regs_pstate v) PSR_MODE_EL2t) v)
     else ret tt) ;;
    ret 1.

(** The call through a function pointer of the table. *)
Definition call_exit_handler (fn : exit_handle_fn) : M Z :=
  match fn with
  | fn_kvm_handle_unknown_ec      => kvm_handle_unknown_ec
  | fn_kvm_handle_wfx             => kvm_handle_wfx
  | fn_kvm_handle_cp15_32         => extern_handler c_kvm_handle_cp15_32 kvm_handle_cp15_32
  | fn_kvm_handle_cp15_64         => extern_handler c_kvm_handle_cp15_64 kvm_handle_cp15_64
  | fn_kvm_handle_cp14_32         => extern_handler c_kvm_handle_cp14_32 kvm_handle_cp14_32
  | fn_kvm_handle_cp14_load_store => extern_handler c_kvm_handle_cp14_load_store kvm_handle_cp14_load_store
  | fn_kvm_handle_cp14_64         => extern_handler c_kvm_handle_cp14_64 kvm_handle_cp14_64
  | fn_handle_hvc                 => handle_hvc
  | fn_handle_smc                 => handle_smc
  | fn_kvm_handle_sys             => extern_handler c_kvm_handle_sys kvm_handle_sys
  | fn_kvm_handle_eret            => kvm_handle_eret
  | fn_kvm_handle_guest_abort     => extern_handler c_kvm_handle_guest_abort kvm_handle_guest_abort
  | fn_kvm_handle_guest_debug     => kvm_handle_guest_debug
  | fn_kvm_handle_fpasimd         => kvm_handle_fpasimd
  end.

(** [arm_exit_handlers[hsr_ec]]; [None] is an index past the end of the
    array, which [kvm_get_exit_handler_some] below shows not to happen. *)
Definition kvm_get_exit_handler : M (option exit_handle_fn) :=
  hsr <- vcpu_read kvm_vcpu_get_hsr ;;
  let hsr_ec := u8 (ESR_ELx_EC hsr) in
  emit (Lookup_arm_exit_handlers hsr_ec) ;;
  ret (arm_exit_handlers !! Z.to_nat hsr_ec).

Definition is_call_class (hsr_ec : Z) : bool :=
  (hsr_ec =? ESR_ELx_EC_HVC32) || (hsr_ec =? ESR_ELx_EC_HVC64) ||
  (hsr_ec =? ESR_ELx_EC_SMC32) || (hsr_ec =? ESR_ELx_EC_SMC64).

Definition handle_exit (exception_index : Z) (w : world) : option (Z * world) :=
  if ARM_SERROR_PENDING exception_index then
    Some ((hsr <- vcpu_read kvm_vcpu_get_hsr ;;
           let hsr_ec := u8 (ESR_ELx_EC hsr) in
           (if is_call_class hsr_ec then
              il <- vcpu_read kvm_vcpu_trap_il_is32bit ;;
              let adj := if il then 4 else 2 in
              vcpu_update (fun v => set_pc (u64 (regs_pc v - adj)) v)
            else ret tt) ;;
           inject_vabt ;;
           ret 1) w)
  else
    let exception_index := ARM_EXCEPTION_CODE exception_index in
    if exception_index =? ARM_EXCEPTION_IRQ then Some (ret 1 w)
    else if exception_index =? ARM_EXCEPTION_EL1_SERROR then
      Some ((inject_vabt ;; ret 1) w)
    else if exception_index =? ARM_EXCEPTION_TRAP then
      if negb (kvm_condition_valid (w_vcpu w)) then
        Some ((skip_instr ;; ret 1) w)
      else
        match kvm_get_exit_handler w with
        | (Some exit_handler, w') => Some (call_exit_handler exit_handler w')
        | (None, _) => None
        end
    else if exception_index =? ARM_EXCEPTION_HYP_GONE then
      Some ((run_update (set_exit_reason KVM_EXIT_FAIL_ENTRY) ;; ret 0) w)
    else
      Some ((emit (kvm_pr_unimpl_unsupported exception_index) ;;
             run_update (set_exit_reason KVM_EXIT_INTERNAL_ERROR) ;;
             ret 0) w).

End handlers.

(** ** A sample implementation of the interface

    It is used to run the handlers on concrete inputs.  The nested helpers
    follow the comments of handle_exit.c: a trap is forwarded to the virtual
    EL2 when the vcpu has nested virtualization and the virtual HCR_EL2 has
    the matching trap bit (NV for ERET and SMC, TWE and TWI for WFE and
    WFI).  The state that fault injection, PSCI and the scheduler change is
    outside the members kept in [kvm_vcpu], so they leave the vcpu as it
    is; [psci_ret] is what the PSCI service returns. *)

Definition HCR_TWI : Z := Z.shiftl 1 13.
Definition HCR_TWE : Z := Z.shiftl 1 14.
Definition HCR_NV  : Z := Z.shiftl 1 42.

Definition no_handler (v : kvm_vcpu) (r : kvm_run) : Z * (kvm_vcpu * kvm_run) :=
  (1, (v, r)).

Definition sample_collaborators (cond_valid nested : bool) (psci_ret : Z)
    : Collaborators :=
  {| CONFIG_KVM_ARM_NESTED_PV := false;
     kvm_condition_valid := fun _ => cond_valid;
     nested_virt_in_use := fun _ => nested;
     forward_nv_traps := fun v =>
       nested && negb (Z.land (sys_HCR_EL2 v) HCR_NV =? 0);
     vcpu_mode_el1 := fun v =>
       let mode := Z.land (regs_pstate v) PSR_MODE_MASK in
       (mode =? PSR_MODE_EL1h) || (mode =? PSR_MODE_EL1t);
     vcpu_el2_e2h_is_set := fun v => negb (Z.land (sys_HCR_EL2 v) HCR_E2H =? 0);
     vcpu_el2_tge_is_set := fun v => negb (Z.land (sys_HCR_EL2 v) HCR_TGE =? 0);
     kvm_inject_undefined := fun v => v;
     kvm_inject_vabt := fun v => v;
     kvm_inject_nested_sync := fun v _ => (1, v);
     kvm_psci_call := fun v => (psci_ret, v);
     handle_hvc_nested := fun v => (- EINVAL, v);
     handle_wfx_nested := fun v is_wfe =>
       let trap_bit := if is_wfe then HCR_TWE else HCR_TWI in
       (if negb (Z.land (sys_HCR_EL2 v) trap_bit =? 0) then 1 else - EINVAL, v);
     kvm_vcpu_on_spin := fun v => v;
     kvm_vcpu_block := fun v => v;
     kvm_handle_cp15_32 := no_handler;
     kvm_handle_cp15_64 := no_handler;
     kvm_handle_cp14_32 := no_handler;
     kvm_handle_cp14_load_store := no_handler;
     kvm_handle_cp14_64 := no_handler;
     kvm_handle_sys := no_handler;
     kvm_handle_guest_abort := no_handler |}.

(** The same built with CONFIG_KVM_ARM_NESTED_PV, on a vcpu with nested
    virtualization; [nested_ret] is what handle_hvc_nested returns. *)
Definition sample_collaborators_pv (nested_ret psci_ret : Z) : Collaborators :=
  {| CONFIG_KVM_ARM_NESTED_PV := true;
     kvm_condition_valid := fun _ => true;
     nested_virt_in_use := fun _ => true;
     forward_nv_traps := fun v => negb (Z.land (sys_HCR_EL2 v) HCR_NV =? 0);
     vcpu_mode_el1 := fun v =>
       let mode := Z.land (regs_pstate v) PSR_MODE_MASK in
       (mode =? PSR_MODE_EL1h) || (mode =? PSR_MODE_EL1t);
     vcpu_el2_e2h_is_set := fun v => negb (Z.land (sys_HCR_EL2 v) HCR_E2H =? 0);
     vcpu_el2_tge_is_set := fun v => negb (Z.land (sys_HCR_EL2 v) HCR_TGE =? 0);
     kvm_inject_undefined := fun v => v;
     kvm_inject_vabt := fun v => v;
     kvm_inject_nested_sync := fun v _ => (1, v);
     kvm_psci_call := fun v => (psci_ret, v);
     handle_hvc_nested := fun v => (nested_ret, v);
     handle_wfx_nested := fun v is_wfe =>
       let trap_bit := if is_wfe then HCR_TWE else HCR_TWI in
       (if negb (Z.land (sys_HCR_EL2 v) trap_bit =? 0) then 1 else - EINVAL, v);
     kvm_vcpu_on_spin := fun v => v;
     kvm_vcpu_block := fun v => v;
     kvm_handle_cp15_32 := no_handler;
     kvm_handle_cp15_64 := no_handler;
     kvm_handle_cp14_32 := no_handler;
     kvm_handle_cp14_load_store := no_handler;
     kvm_handle_cp14_64 := no_handler;
     kvm_handle_sys := no_handler;
     kvm_handle_guest_abort := no_handler |}.

(** A vcpu at [pc] with syndrome [esr], virtual HCR_EL2 [hcr] and virtual
    CPTR_EL2 [cptr]; everything else is zero. *)
Definition sample_vcpu (pc esr hcr cptr : Z) : kvm_vcpu :=
  {| regs_pc := pc; regs_pstate := PSR_MODE_EL1h; regs_x0 := 0;
     fault_esr_el2 := esr; fault_far_el2 := 0;
     sys_HCR_EL2 := hcr; sys_CPTR_EL2 := cptr;
     sreg_ELR_EL2 := 0; sreg_SPSR_EL2 := 0;
     stat := {| hvc_exit_stat := 0; wfe_exit_stat := 0; wfi_exit_stat := 0 |};
     requests := 0; exclusive_pending := false |}.

Definition sample_run : kvm_run :=
  {| exit_reason := 0; debug_arch_hsr := 0; debug_arch_far := 0 |}.

Definition sample_world (v : kvm_vcpu) : world :=
  {| w_vcpu := v; w_run := sample_run; w_log := [] |}.

(** The syndrome of a trap of class [ec] with the IL bit [il] and the low
    bits [iss]. *)
Definition mk_esr (ec : Z) (il : bool) (iss : Z) : Z :=
  Z.lor (Z.shiftl ec ESR_ELx_EC_SHIFT)
        (Z.lor (if il then ESR_ELx_IL else 0) iss).

(** ** What the collaborators leave alone

    The counters of [vcpu->stat] that this file increments are written
    nowhere else. *)
Record keeps_stat `{!Collaborators} : Prop := {
  stat_kvm_inject_undefined :
    forall v, stat (kvm_inject_undefined v) = stat v;
  stat_kvm_inject_nested_sync :
    forall v esr_el2, stat (snd (kvm_inject_nested_sync v esr_el2)) = stat v;
  stat_kvm_psci_call :
    forall v, stat (snd (kvm_psci_call v)) = stat v;
  stat_handle_hvc_nested :
    forall v, stat (snd (handle_hvc_nested v)) = stat v;
  stat_handle_wfx_nested :
    forall v is_wfe, stat (snd (handle_wfx_nested v is_wfe)) = stat v;
  stat_kvm_vcpu_on_spin :
    forall v, stat (kvm_vcpu_on_spin v) = stat v;
  stat_kvm_vcpu_block :
    forall v, stat (kvm_vcpu_block v) = stat v
}.

(** ** The exception class of a syndrome *)

Lemma ESR_ELx_EC_spec (esr : Z) : ESR_ELx_EC esr = (esr / 2 ^ 26) mod 2 ^ 6.
Proof.
  unfold ESR_ELx_EC, ESR_ELx_EC_MASK, ESR_ELx_EC_SHIFT.
  rewrite Z.shiftr_land.
  change (Z.shiftr (Z.shiftl 63 26) 26) with (Z.ones 6).
  rewrite Z.land_ones by lia.
  now rewrite Z.shiftr_div_pow2 by lia.
Qed.

Lemma ESR_ELx_EC_range (esr : Z) : 0 <= ESR_ELx_EC esr <= ESR_ELx_EC_MAX.
Proof.
  rewrite ESR_ELx_EC_spec. unfold ESR_ELx_EC_MAX.
  pose proof (Z.mod_pos_bound (esr / 2 ^ 26) (2 ^ 6)). lia.
Qed.

Lemma u8_ESR_ELx_EC (esr : Z) : u8 (ESR_ELx_EC esr) = ESR_ELx_EC esr.
Proof.
  pose proof (ESR_ELx_EC_range esr) as Hr. unfold ESR_ELx_EC_MAX in Hr.
  unfold u8. apply Z.mod_small. lia.
Qed.

Lemma is_call_class_spec (ec : Z) :
  is_call_class ec = true <->
  ec = ESR_ELx_EC_HVC32 \/ ec = ESR_ELx_EC_HVC64 \/
  ec = ESR_ELx_EC_SMC32 \/ ec = ESR_ELx_EC_SMC64.
Proof.
  unfold is_call_class. rewrite !orb_true_iff, !Z.eqb_eq. tauto.
Qed.

Section top_level.
Context `{!Collaborators}.

(** C1.  An exit whose raw exception index has the SError-pending bit
    injects a virtual abort and returns 1.  When the exception class of the
    syndrome is HVC32, HVC64, SMC32 or SMC64 the abort is injected into a
    vcpu whose PC has been wound back by 4 (IL set) or 2 (IL clear), modulo
    2^64; for any other class it is injected into the vcpu as it was. *)
Theorem handle_exit_serror_pending (exception_index : Z) (w : world) :
  ARM_SERROR_PENDING exception_index = true ->
  let v := w_vcpu w in
  let ec := ESR_ELx_EC (kvm_vcpu_get_hsr v) in
  let adj := if kvm_vcpu_trap_il_is32bit v then 4 else 2 in
  let is_call := ec = ESR_ELx_EC_HVC32 \/ ec = ESR_ELx_EC_HVC64 \/
                 ec = ESR_ELx_EC_SMC32 \/ ec = ESR_ELx_EC_SMC64 in
  (is_call ->
   handle_exit exception_index w =
   Some (1, {| w_vcpu := kvm_inject_vabt (set_pc (u64 (regs_pc v - adj)) v);
               w_run := w_run w;
               w_log := w_log w ++ [Call c_kvm_inject_vabt] |})) /\
  (~ is_call ->
   handle_exit exception_index w =
   Some (1, {| w_vcpu := kvm_inject_vabt v;
               w_run := w_run w;
               w_log := w_log w ++ [Call c_kvm_inject_vabt] |})).
Proof.
  intros Hpending v ec adj is_call.
  unfold handle_exit. rewrite Hpending.
  unfold bind, vcpu_read; cbn [fst snd].
  rewrite u8_ESR_ELx_EC. fold v. fold ec.
  destruct (is_call_class ec) eqn:Hcall.
  - split; [intros _ | intros Hn; apply is_call_class_spec in Hcall; now elim Hn].
    destruct w; reflexivity.
  - split; [intros Hc; apply is_call_class_spec in Hc; congruence | intros _].
    destruct w; reflexivity.
Qed.

(** C2.  A trap exit (no SError pending, exception code TRAP) whose
    condition check fails skips the instruction and returns 1, whatever the
    exception class: the only call made is the one of kvm_skip_instr, the
    table is not looked up, and the PC has moved on by 4 (IL set) or 2 (IL
    clear), modulo 2^64. *)
Theorem handle_exit_condition_false (exception_index : Z) (w : world) :
  ARM_SERROR_PENDING exception_index = false ->
  ARM_EXCEPTION_CODE exception_index = ARM_EXCEPTION_TRAP ->
  kvm_condition_valid (w_vcpu w) = false ->
  let v := w_vcpu w in
  let il := kvm_vcpu_trap_il_is32bit v in
  handle_exit exception_index w =
  Some (1, {| w_vcpu := kvm_skip_instr il v;
              w_run := w_run w;
              w_log := w_log w ++ [Call (c_kvm_skip_instr il)] |}) /\
  regs_pc (kvm_skip_instr il v) = u64 (regs_pc v + (if il then 4 else 2)).
Proof.
  intros Hpending Hcode Hcond v il.
  unfold handle_exit. rewrite Hpending, Hcode, Hcond.
  split; reflexivity.
Qed.

End top_level.

Lemma handle_exit_serror_pending_witness :
  let H := sample_collaborators true false 0 in
  let w := sample_world (sample_vcpu 0x8000 (mk_esr ESR_ELx_EC_HVC64 true 0) 0 0) in
  handle_exit (2 ^ 31 + ARM_EXCEPTION_TRAP) w =
  Some (1, {| w_vcpu := sample_vcpu 0x7ffc (mk_esr ESR_ELx_EC_HVC64 true 0) 0 0;
              w_run := sample_run;
              w_log := [Call c_kvm_inject_vabt] |}).
Proof.
  intros H w.
  apply (@handle_exit_serror_pending H (2 ^ 31 + ARM_EXCEPTION_TRAP) w).
  - reflexivity.
  - right. left. reflexivity.
Defined.

Lemma handle_exit_condition_false_witness :
  let H := sample_collaborators false false 0 in
  let w := sample_world (sample_vcpu 0x8000 (mk_esr ESR_ELx_EC_WFx false 0) 0 0) in
  handle_exit ARM_EXCEPTION_TRAP w =
  Some (1, {| w_vcpu := sample_vcpu 0x8002 (mk_esr ESR_ELx_EC_WFx false 0) 0 0;
              w_run := sample_run;
              w_log := [Call (c_kvm_skip_instr false)] |}).
Proof.
  intros H w.
  apply (@handle_exit_condition_false H ARM_EXCEPTION_TRAP w); reflexivity.
Defined.

(** ** The privileged-call handlers *)

Ltac run_handler :=
  repeat progress
    (cbv beta iota zeta delta
       [bind ret vcpu_read vcpu_update run_update emit extern extern_
        extern_handler inject_undefined inject_vabt inject_nested_sync
        skip_instr];
     cbn [fst snd w_vcpu w_run w_log]).

Lemma stat_kvm_skip_instr (il : bool) (v : kvm_vcpu) :
  stat (kvm_skip_instr il v) = stat v.
Proof. reflexivity. Qed.

Lemma stat_kvm_clear_request (req : Z) (v : kvm_vcpu) :
  stat (kvm_clear_request req v) = stat v.
Proof. reflexivity. Qed.

Lemma keeps_stat_sample (cond_valid nested : bool) (psci_ret : Z) :
  @keeps_stat (sample_collaborators cond_valid nested psci_ret).
Proof. split; reflexivity. Qed.

Section call_handlers.
Context `{!Collaborators}.

(** C3 (amended).  An SMC trap with a non-zero immediate that is not
    forwarded to the virtual EL2 (forwarding asks for forward_nv_traps and
    the TSC bit of the virtual HCR_EL2) injects an undefined-instruction
    fault and returns 1.  Forwarded or not, kvm_psci_call is not among the
    calls of that exit. *)
Theorem handle_smc_nonzero_imm (w : world) :
  kvm_vcpu_hvc_get_imm (w_vcpu w) <> 0 ->
  let v := w_vcpu w in
  let forwarded :=
    forward_nv_traps v && negb (Z.land (sys_HCR_EL2 v) HCR_TSC =? 0) in
  (forwarded = false ->
   handle_smc w =
   (1, {| w_vcpu := kvm_inject_undefined v;
          w_run := w_run w;
          w_log := w_log w ++ [Call c_kvm_inject_undefined] |})) /\
  (exists evs, w_log (snd (handle_smc w)) = w_log w ++ evs /\
               ~ In (Call c_kvm_psci_call) evs).
Proof.
  intros Himm. cbv zeta. apply Z.eqb_neq in Himm.
  unfold handle_smc. run_handler.
  destruct (forward_nv_traps (w_vcpu w) && _); run_handler.
  - split; [discriminate |].
    eexists. split; [reflexivity |]. cbn. intuition discriminate.
  - rewrite Himm. run_handler.
    split; [reflexivity |].
    eexists. split; [reflexivity |]. cbn. intuition discriminate.
Qed.

(** C4 (amended).  handle_hvc emits the trace event with the PC, x0 and
    the immediate of the call and increments hvc_exit_stat, whichever branch
    it takes afterwards (the collaborators it calls leave the counters
    alone).  handle_smc emits no such event on any branch and leaves
    hvc_exit_stat as it was. *)
Theorem handle_hvc_smc_trace_and_stat (w : world) :
  keeps_stat ->
  let v := w_vcpu w in
  (hvc_exit_stat (stat (w_vcpu (snd (handle_hvc w)))) =
     u64 (hvc_exit_stat (stat v) + 1) /\
   exists evs,
     w_log (snd (handle_hvc w)) =
     w_log w ++
       trace_kvm_hvc_arm64 (regs_pc v) (regs_x0 v) (kvm_vcpu_hvc_get_imm v)
       :: evs) /\
  (hvc_exit_stat (stat (w_vcpu (snd (handle_smc w)))) = hvc_exit_stat (stat v) /\
   exists evs,
     w_log (snd (handle_smc w)) = w_log w ++ evs /\
     forall vcpu_pc r0 imm, ~ In (trace_kvm_hvc_arm64 vcpu_pc r0 imm) evs).
Proof.
  intros [Hundef Hsync Hpsci Hhvc _ _ _]. cbv zeta. split.
  - unfold handle_hvc, handle_hvc_psci. run_handler.
    repeat match goal with
           | |- context [if ?b then _ else _] => destruct b eqn:?
           end;
      run_handler;
      rewrite ?Hundef, ?Hsync, ?Hpsci, ?Hhvc, ?Hundef, ?Hpsci;
      (split; [reflexivity | rewrite <- ?app_assoc; eexists; reflexivity]).
  - unfold handle_smc. run_handler.
    repeat match goal with
           | |- context [if ?b then _ else _] => destruct b eqn:?
           end;
      run_handler;
      rewrite ?stat_kvm_skip_instr, ?Hundef, ?Hsync, ?Hpsci;
      (split; [reflexivity |
               rewrite <- ?app_assoc; eexists; split; [reflexivity |];
               cbn; intuition discriminate]).
Qed.

(** C5 (amended).  kvm_handle_fpasimd forwards the trap as a synchronous
    nested exception exactly when the virtual CPTR_EL2 has the TFP bit,
    without asking whether the vcpu uses nested virtualization; when the bit
    is clear it injects an undefined-instruction fault and returns 1. *)
Theorem kvm_handle_fpasimd_tfp (w : world) :
  let v := w_vcpu w in
  let hsr := kvm_vcpu_get_hsr v in
  (Z.land (sys_CPTR_EL2 v) CPTR_EL2_TFP <> 0 ->
   kvm_handle_fpasimd w =
   (fst (kvm_inject_nested_sync v hsr),
    {| w_vcpu := snd (kvm_inject_nested_sync v hsr);
       w_run := w_run w;
       w_log := w_log w ++ [Call (c_kvm_inject_nested_sync hsr)] |})) /\
  (Z.land (sys_CPTR_EL2 v) CPTR_EL2_TFP = 0 ->
   kvm_handle_fpasimd w =
   (1, {| w_vcpu := kvm_inject_undefined v;
          w_run := w_run w;
          w_log := w_log w ++ [Call c_kvm_inject_undefined] |})).
Proof.
  cbv zeta. unfold kvm_handle_fpasimd. run_handler.
  split; intros Htfp.
  - apply Z.eqb_neq in Htfp. rewrite Htfp. reflexivity.
  - rewrite Htfp. reflexivity.
Qed.

End call_handlers.

Lemma handle_smc_nonzero_imm_witness :
  let H := sample_collaborators true false 0 in
  let v := sample_vcpu 0x8000 (mk_esr ESR_ELx_EC_SMC64 true 1) 0 0 in
  handle_smc (sample_world v) =
  (1, {| w_vcpu := v; w_run := sample_run;
         w_log := [Call c_kvm_inject_undefined] |}).
Proof.
  intros H v.
  apply (@handle_smc_nonzero_imm H (sample_world v)).
  - vm_compute. discriminate.
  - reflexivity.
Defined.

(** C3 as stated fails when the trap is forwarded: with nested
    virtualization in use and NV and TSC set in the virtual HCR_EL2, an
    SMC #1 is handed to the virtual EL2 and no undefined-instruction fault is
    injected. *)
Lemma handle_smc_nonzero_imm_forwarded :
  let H := sample_collaborators true true 0 in
  let esr := mk_esr ESR_ELx_EC_SMC64 true 1 in
  let v := sample_vcpu 0x8000 esr (Z.lor HCR_NV HCR_TSC) 0 in
  ESR_ELx_EC (kvm_vcpu_get_hsr v) = ESR_ELx_EC_SMC64 /\
  kvm_vcpu_hvc_get_imm v = 1 /\
  handle_exit ARM_EXCEPTION_TRAP (sample_world v) =
  Some (1, {| w_vcpu := v; w_run := sample_run;
              w_log := [Lookup_arm_exit_handlers ESR_ELx_EC_SMC64;
                        Call (c_kvm_inject_nested_sync esr)] |}) /\
  handle_smc (sample_world v) =
  (1, {| w_vcpu := v; w_run := sample_run;
         w_log := [Call (c_kvm_inject_nested_sync esr)] |}) /\
  ~ In (Call c_kvm_inject_undefined) (w_log (snd (handle_smc (sample_world v)))).
Proof.
  cbv zeta. repeat split; try reflexivity.
  vm_compute. intuition discriminate.
Qed.

Lemma handle_hvc_smc_trace_and_stat_witness :
  let H := sample_collaborators true false 0 in
  let v := sample_vcpu 0x8000 (mk_esr ESR_ELx_EC_HVC64 true 0) 0 0 in
  hvc_exit_stat (stat (w_vcpu (snd (handle_hvc (sample_world v))))) =
  u64 (hvc_exit_stat (stat v) + 1).
Proof.
  intros H v.
  apply (@handle_hvc_smc_trace_and_stat H (sample_world v)).
  split; reflexivity.
Defined.

(** C4 as stated fails for the SMC handler: a PSCI call made with SMC #0
    leaves hvc_exit_stat at 0 and logs no trace event. *)
Lemma handle_smc_no_trace_no_stat :
  let H := sample_collaborators true false 0 in
  let v := sample_vcpu 0x8000 (mk_esr ESR_ELx_EC_SMC64 true 0) 0 0 in
  let w' := snd (handle_smc (sample_world v)) in
  hvc_exit_stat (stat v) = 0 /\
  hvc_exit_stat (stat (w_vcpu w')) = 0 /\
  w_log w' = [Call c_kvm_psci_call; Call (c_kvm_skip_instr true)] /\
  handle_exit ARM_EXCEPTION_TRAP (sample_world v) =
  Some (0, {| w_vcpu := sample_vcpu 0x8004 (mk_esr ESR_ELx_EC_SMC64 true 0) 0 0;
              w_run := sample_run;
              w_log := [Lookup_arm_exit_handlers ESR_ELx_EC_SMC64;
                        Call c_kvm_psci_call;
                        Call (c_kvm_skip_instr true)] |}).
Proof. cbv zeta. repeat split; reflexivity. Qed.

Lemma kvm_handle_fpasimd_tfp_witness :
  let H := sample_collaborators true false 0 in
  let v := sample_vcpu 0x8000 (mk_esr ESR_ELx_EC_FP_ASIMD true 0) 0 0 in
  kvm_handle_fpasimd (sample_world v) =
  (1, {| w_vcpu := v; w_run := sample_run;
         w_log := [Call c_kvm_inject_undefined] |}).
Proof.
  intros H v.
  apply (@kvm_handle_fpasimd_tfp H (sample_world v)).
  reflexivity.
Defined.

(** C5 as stated fails on a vcpu without nested virtualization whose
    virtual CPTR_EL2 has TFP: the trap is forwarded all the same and no
    undefined-instruction fault is injected. *)
Lemma kvm_handle_fpasimd_forwards_without_nested :
  let H := sample_collaborators true false 0 in
  let esr := mk_esr ESR_ELx_EC_FP_ASIMD true 0 in
  let v := sample_vcpu 0x8000 esr 0 CPTR_EL2_TFP in
  nested_virt_in_use v = false /\
  kvm_handle_fpasimd (sample_world v) =
  (1, {| w_vcpu := v; w_run := sample_run;
         w_log := [Call (c_kvm_inject_nested_sync esr)] |}) /\
  ~ In (Call c_kvm_inject_undefined)
       (w_log (snd (kvm_handle_fpasimd (sample_world v)))).
Proof.
  cbv zeta. repeat split; try reflexivity.
  vm_compute. intuition discriminate.
Qed.

(** ** The wait-instruction handler *)

Lemma requests_kvm_skip_instr (il : bool) (v : kvm_vcpu) :
  requests (kvm_skip_instr il v) = requests v.
Proof. reflexivity. Qed.

Lemma kvm_clear_request_unhalt (v : kvm_vcpu) :
  Z.testbit (requests (kvm_clear_request KVM_REQ_UNHALT v)) KVM_REQ_UNHALT = false.
Proof.
  unfold kvm_clear_request. cbn [requests set_requests].
  change (Z.land KVM_REQ_UNHALT KVM_REQUEST_MASK) with KVM_REQ_UNHALT.
  apply Z.clearbit_eq.
Qed.

Section wait_handler.
Context `{!Collaborators}.

(** C6 (amended).  A WFx trap that is handled locally, that is, on a vcpu
    without nested virtualization or after handle_wfx_nested has answered
    -EINVAL, returns 1.  For WFE it increments wfe_exit_stat and calls
    kvm_vcpu_on_spin; for WFI it increments wfi_exit_stat, calls
    kvm_vcpu_block and, once that has returned, clears KVM_REQ_UNHALT with a
    single call.  In both cases kvm_skip_instr is the last call before the
    return. *)
Theorem kvm_handle_wfx_local_path (w : world) :
  let v := w_vcpu w in
  let is_wfe := negb (Z.land (kvm_vcpu_get_hsr v) ESR_ELx_WFx_ISS_WFE =? 0) in
  let nested := nested_virt_in_use v in
  nested = false \/ fst (handle_wfx_nested v is_wfe) = - EINVAL ->
  let v0 := if nested then snd (handle_wfx_nested v is_wfe) else v in
  let log0 :=
    if nested then w_log w ++ [Call (c_handle_wfx_nested is_wfe)]
    else w_log w in
  let v1 :=
    if is_wfe then kvm_vcpu_on_spin (wfe_exit_stat_incr v0)
    else kvm_clear_request KVM_REQ_UNHALT
           (kvm_vcpu_block (wfi_exit_stat_incr v0)) in
  let il := kvm_vcpu_trap_il_is32bit v1 in
  let w' := snd (kvm_handle_wfx w) in
  kvm_handle_wfx w =
  (1, {| w_vcpu := kvm_skip_instr il v1;
         w_run := w_run w;
         w_log := log0 ++
                  trace_kvm_wfx_arm64 (regs_pc v0) is_wfe ::
                  (if is_wfe then [Call c_kvm_vcpu_on_spin]
                   else [Call c_kvm_vcpu_block;
                         Call (c_kvm_clear_request KVM_REQ_UNHALT)]) ++
                  [Call (c_kvm_skip_instr il)] |}) /\
  (is_wfe = false ->
   Z.testbit (requests (w_vcpu w')) KVM_REQ_UNHALT = false) /\
  (keeps_stat ->
   if is_wfe
   then wfe_exit_stat (stat (w_vcpu w')) = u64 (wfe_exit_stat (stat v) + 1)
   else wfi_exit_stat (stat (w_vcpu w')) = u64 (wfi_exit_stat (stat v) + 1)).
Proof.
  intros v is_wfe nested Hlocal v0 log0 v1 il w'.
  assert (Hrun : kvm_handle_wfx w =
    (1, {| w_vcpu := kvm_skip_instr il v1;
           w_run := w_run w;
           w_log := log0 ++
                    trace_kvm_wfx_arm64 (regs_pc v0) is_wfe ::
                    (if is_wfe then [Call c_kvm_vcpu_on_spin]
                     else [Call c_kvm_vcpu_block;
                           Call (c_kvm_clear_request KVM_REQ_UNHALT)]) ++
                    [Call (c_kvm_skip_instr il)] |})).
  { subst w' il v1 log0 v0 nested is_wfe v.
    unfold kvm_handle_wfx. run_handler.
    set (is_wfe := negb _) in *.
    destruct (nested_virt_in_use (w_vcpu w)) eqn:Hnested; run_handler.
    - destruct Hlocal as [Hn | Hret]; [discriminate |].
      rewrite Hret. change (- EINVAL <? 0) with true.
      change (- EINVAL =? - EINVAL) with true.
      change (- EINVAL >=? 0) with false. cbn [andb negb].
      unfold kvm_handle_wfx_local. run_handler.
      destruct is_wfe; run_handler; rewrite <- ?app_assoc; reflexivity.
    - unfold kvm_handle_wfx_local. run_handler.
      destruct is_wfe; run_handler; rewrite <- ?app_assoc; reflexivity. }
  split; [exact Hrun |]. subst w'. rewrite Hrun. cbn [snd w_vcpu].
  split.
  - intros Hwfi. subst v1. rewrite Hwfi.
    rewrite requests_kvm_skip_instr. apply kvm_clear_request_unhalt.
  - intros [_ _ _ _ Hnest Hspin Hblock].
    rewrite stat_kvm_skip_instr. subst v1.
    assert (Hv0 : stat v0 = stat v).
    { subst v0. destruct nested; [apply Hnest | reflexivity]. }
    destruct is_wfe.
    + rewrite Hspin. cbn. now rewrite Hv0.
    + rewrite stat_kvm_clear_request, Hblock. cbn. now rewrite Hv0.
Qed.

End wait_handler.

Lemma kvm_handle_wfx_local_path_witness :
  let H := sample_collaborators true false 0 in
  let v := sample_vcpu 0x8000 (mk_esr ESR_ELx_EC_WFx true 0) 0 0 in
  kvm_handle_wfx (sample_world v) =
  (1, {| w_vcpu :=
           kvm_skip_instr true
             (kvm_clear_request KVM_REQ_UNHALT (wfi_exit_stat_incr v));
         w_run := sample_run;
         w_log := [trace_kvm_wfx_arm64 0x8000 false;
                   Call c_kvm_vcpu_block;
                   Call (c_kvm_clear_request KVM_REQ_UNHALT);
                   Call (c_kvm_skip_instr true)] |}).
Proof.
  intros H v.
  apply (@kvm_handle_wfx_local_path H (sample_world v)).
  left. reflexivity.
Defined.

(** C6 as stated fails on a vcpu with nested virtualization whose virtual
    HCR_EL2 traps WFE: the nested helper takes the trap, the handler
    returns at once, wfe_exit_stat stays 0 and the PC stays on the WFE. *)
Lemma kvm_handle_wfx_nested_takes_trap :
  let H := sample_collaborators true true 0 in
  let v := sample_vcpu 0x8000 (mk_esr ESR_ELx_EC_WFx true 1) HCR_TWE 0 in
  let w' := snd (kvm_handle_wfx (sample_world v)) in
  wfe_exit_stat (stat v) = 0 /\
  wfe_exit_stat (stat (w_vcpu w')) = 0 /\
  regs_pc (w_vcpu w') = regs_pc v /\
  w_log w' = [Call (c_handle_wfx_nested true)] /\
  handle_exit ARM_EXCEPTION_TRAP (sample_world v) =
  Some (1, {| w_vcpu := v; w_run := sample_run;
              w_log := [Lookup_arm_exit_handlers ESR_ELx_EC_WFx;
                        Call (c_handle_wfx_nested true)] |}).
Proof. cbv zeta. repeat split; reflexivity. Qed.

(** ** Exception return *)

Lemma mode_bits_replaced (spsr mode : Z) :
  Z.land mode PSR_MODE_MASK = mode ->
  Z.land (Z.lor (Z.land spsr (u64 (Z.lnot PSR_MODE_MASK))) mode) PSR_MODE_MASK
  = mode.
Proof.
  intros Hmode.
  rewrite Z.land_lor_distr_l, <- Z.land_assoc.
  change (Z.land (u64 (Z.lnot PSR_MODE_MASK)) PSR_MODE_MASK) with 0.
  now rewrite Z.land_0_r, Z.lor_0_l.
Qed.

Lemma u32_mode_bits (cpsr : Z) :
  u32 (Z.land cpsr PSR_MODE_MASK) = Z.land cpsr PSR_MODE_MASK.
Proof.
  unfold u32. apply Z.mod_small.
  change PSR_MODE_MASK with (Z.ones 4).
  rewrite Z.land_ones by lia.
  pose proof (Z.mod_pos_bound cpsr (2 ^ 4)). lia.
Qed.

Section eret.
Context `{!Collaborators}.

(** C7.  An ERET trap that is not forwarded (forward_nv_traps false) loads
    the PC from ELR_EL2 and the status from SPSR_EL2 and returns 1.  If the
    restored mode is EL1 and the virtual HCR_EL2 has E2H and TGE, the mode
    bits of the final status are EL2h when SPSR_EL2 said EL1h and EL2t when
    it said EL1t, the other bits being those of SPSR_EL2; otherwise the
    status is SPSR_EL2 as it is. *)
Theorem kvm_handle_eret_vhe (w : world) :
  let v := w_vcpu w in
  forward_nv_traps v = false ->
  let restored := set_cpsr (sreg_SPSR_EL2 v) (set_pc (sreg_ELR_EL2 v) v) in
  let vhe_el1 := vcpu_mode_el1 restored && vcpu_el2_e2h_is_set restored &&
                 vcpu_el2_tge_is_set restored in
  let mode := Z.land (sreg_SPSR_EL2 v) PSR_MODE_MASK in
  let r := kvm_handle_eret w in
  let cpsr' := regs_pstate (w_vcpu (snd r)) in
  fst r = 1 /\
  regs_pc (w_vcpu (snd r)) = sreg_ELR_EL2 v /\
  (vhe_el1 = true ->
   (mode = PSR_MODE_EL1h -> Z.land cpsr' PSR_MODE_MASK = PSR_MODE_EL2h) /\
   (mode = PSR_MODE_EL1t -> Z.land cpsr' PSR_MODE_MASK = PSR_MODE_EL2t) /\
   Z.land cpsr' (u64 (Z.lnot PSR_MODE_MASK)) =
   Z.land (sreg_SPSR_EL2 v) (u64 (Z.lnot PSR_MODE_MASK))) /\
  (vhe_el1 = false -> cpsr' = sreg_SPSR_EL2 v).
Proof.
  cbv zeta. intros Hfwd.
  unfold kvm_handle_eret. run_handler. rewrite Hfwd. run_handler.
  destruct (vcpu_mode_el1 _ && _ && _) eqn:Hvhe; run_handler.
  - rewrite u32_mode_bits. cbn [regs_pstate set_cpsr set_pc].
    destruct (Z.land (sreg_SPSR_EL2 (w_vcpu w)) PSR_MODE_MASK =? PSR_MODE_EL1h)
      eqn:Hmode; run_handler; cbn [regs_pstate regs_pc set_cpsr set_pc].
    + apply Z.eqb_eq in Hmode.
      repeat split; try discriminate; intros.
      * now apply mode_bits_replaced.
      * rewrite Hmode in *. discriminate.
      * rewrite Z.land_lor_distr_l, <- Z.land_assoc, Z.land_diag.
        change (Z.land PSR_MODE_EL2h (u64 (Z.lnot PSR_MODE_MASK))) with 0.
        apply Z.lor_0_r.
    + apply Z.eqb_neq in Hmode.
      repeat split; try discriminate; intros.
      * contradiction.
      * now apply mode_bits_replaced.
      * rewrite Z.land_lor_distr_l, <- Z.land_assoc, Z.land_diag.
        change (Z.land PSR_MODE_EL2t (u64 (Z.lnot PSR_MODE_MASK))) with 0.
        apply Z.lor_0_r.
  - repeat split; try discriminate; reflexivity.
Qed.

End eret.

Lemma kvm_handle_eret_vhe_witness :
  let H := sample_collaborators true true 0 in
  let v :=
    {| regs_pc := 0x8000; regs_pstate := PSR_MODE_EL2h; regs_x0 := 0;
       fault_esr_el2 := mk_esr ESR_ELx_EC_ERET true 0; fault_far_el2 := 0;
       sys_HCR_EL2 := Z.lor HCR_E2H HCR_TGE; sys_CPTR_EL2 := 0;
       sreg_ELR_EL2 := 0x9000; sreg_SPSR_EL2 := Z.lor 0x3c0 PSR_MODE_EL1h;
       stat := {| hvc_exit_stat := 0; wfe_exit_stat := 0; wfi_exit_stat := 0 |};
       requests := 0; exclusive_pending := false |} in
  let r := kvm_handle_eret (sample_world v) in
  fst r = 1 /\
  regs_pc (w_vcpu (snd r)) = 0x9000 /\
  Z.land (regs_pstate (w_vcpu (snd r))) PSR_MODE_MASK = PSR_MODE_EL2h.
Proof.
  intros H v r.
  destruct (@kvm_handle_eret_vhe H (sample_world v) eq_refl)
    as (Hret & Hpc & Hvhe & _).
  destruct (Hvhe eq_refl) as (Hh & _ & _).
  exact (conj Hret (conj Hpc (Hh eq_refl))).
Defined.

(** ** The table and the unknown class *)

Lemma length_arm_exit_handlers :
  length arm_exit_handlers = Z.to_nat (ESR_ELx_EC_MAX + 1).
Proof. reflexivity. Qed.

Lemma kvm_get_exit_handler_some (w : world) :
  is_Some (fst (kvm_get_exit_handler w)).
Proof.
  unfold kvm_get_exit_handler. run_handler.
  apply lookup_lt_is_Some. rewrite length_arm_exit_handlers, u8_ESR_ELx_EC.
  pose proof (ESR_ELx_EC_range (kvm_vcpu_get_hsr (w_vcpu w))). lia.
Qed.

Lemma handle_exit_some `{!Collaborators} (exception_index : Z) (w : world) :
  is_Some (handle_exit exception_index w).
Proof.
  unfold handle_exit.
  repeat match goal with
         | |- is_Some (if ?b then _ else _) => destruct b
         | |- is_Some (Some _) => eexists; reflexivity
         end.
  destruct (kvm_get_exit_handler_some w) as [fn Hfn].
  destruct (kvm_get_exit_handler w) as [o w']. cbn in Hfn. subst o.
  eexists; reflexivity.
Qed.

Lemma arm_exit_handlers_scan :
  forallb
    (fun n =>
       existsb (Z.eqb (Z.of_nat n)) (map fst arm_exit_handlers_designated) ||
       bool_decide (arm_exit_handlers !! n = Some fn_kvm_handle_unknown_ec))
    (seq 0 (Z.to_nat (ESR_ELx_EC_MAX + 1))) = true.
Proof. vm_compute. reflexivity. Qed.

Section unknown_class.
Context `{!Collaborators}.

(** C8.  Every exception class of 0 .. ESR_ELx_EC_MAX that has no
    designated initialiser of its own in arm_exit_handlers is mapped to
    kvm_handle_unknown_ec, and that handler injects an undefined-instruction
    fault and returns 1. *)
Theorem arm_exit_handlers_default (ec : Z) (w : world) :
  0 <= ec <= ESR_ELx_EC_MAX ->
  ~ In ec (map fst arm_exit_handlers_designated) ->
  arm_exit_handlers !! Z.to_nat ec = Some fn_kvm_handle_unknown_ec /\
  (ESR_ELx_EC (kvm_vcpu_get_hsr (w_vcpu w)) = ec ->
   fst (kvm_get_exit_handler w) = Some fn_kvm_handle_unknown_ec) /\
  call_exit_handler fn_kvm_handle_unknown_ec w =
  (1, {| w_vcpu := kvm_inject_undefined (w_vcpu w);
         w_run := w_run w;
         w_log := w_log w ++
                  [kvm_pr_unimpl_unknown_ec (kvm_vcpu_get_hsr (w_vcpu w));
                   Call c_kvm_inject_undefined] |}).
Proof.
  intros Hrange Hfree.
  assert (Htbl : arm_exit_handlers !! Z.to_nat ec = Some fn_kvm_handle_unknown_ec);
    [| split; [exact Htbl | split]].
  - pose proof arm_exit_handlers_scan as Hscan.
    rewrite forallb_forall in Hscan.
    specialize (Hscan (Z.to_nat ec)).
    rewrite in_seq, Z2Nat.id in Hscan by lia.
    assert (Hlt : (0 <= Z.to_nat ec < 0 + Z.to_nat (ESR_ELx_EC_MAX + 1))%nat)
      by lia.
    apply Hscan in Hlt. apply orb_true_iff in Hlt as [Hin | Hunk].
    + exfalso. apply Hfree.
      apply existsb_exists in Hin as (x & Hx & Heq).
      apply Z.eqb_eq in Heq. now subst x.
    + now apply bool_decide_eq_true in Hunk.
  - intros Hec. unfold kvm_get_exit_handler. run_handler.
    now rewrite u8_ESR_ELx_EC, Hec.
  - unfold call_exit_handler, kvm_handle_unknown_ec. run_handler.
    now rewrite <- app_assoc.
Qed.

End unknown_class.

Lemma arm_exit_handlers_default_witness :
  let H := sample_collaborators true false 0 in
  let w := sample_world (sample_vcpu 0 (mk_esr 0x11 true 0) 0 0) in
  arm_exit_handlers !! Z.to_nat 0x11 = Some fn_kvm_handle_unknown_ec /\
  fst (kvm_get_exit_handler w) = Some fn_kvm_handle_unknown_ec.
Proof.
  intros H w.
  assert (Hrange : 0 <= 0x11 <= ESR_ELx_EC_MAX) by (unfold ESR_ELx_EC_MAX; lia).
  assert (Hfree : ~ In 0x11 (map fst arm_exit_handlers_designated))
    by (vm_compute; intuition discriminate).
  destruct (@arm_exit_handlers_default H 0x11 w Hrange Hfree)
    as (Htbl & Hget & _).
  exact (conj Htbl (Hget eq_refl)).
Defined.

(** ** Debug exceptions *)

Lemma kvm_handle_guest_debug_far (w : world) :
  ESR_ELx_EC (kvm_vcpu_get_hsr (w_vcpu w)) = ESR_ELx_EC_WATCHPT_LOW ->
  kvm_handle_guest_debug w =
  (0, {| w_vcpu := w_vcpu w;
         w_run := {| exit_reason := KVM_EXIT_DEBUG;
                     debug_arch_hsr := kvm_vcpu_get_hsr (w_vcpu w);
                     debug_arch_far := fault_far_el2 (w_vcpu w) |};
         w_log := w_log w |}).
Proof.
  intros Hec. unfold kvm_handle_guest_debug. run_handler.
  rewrite Hec. reflexivity.
Qed.

Section debug.
Context `{!Collaborators}.

(** C9.  On a watchpoint syndrome with far_el2 = 0x1000 the debug handler
    returns 0 with exit reason KVM_EXIT_DEBUG, the syndrome in
    debug.arch.hsr and 0x1000 in debug.arch.far, and so does handle_exit on
    a trap exit that passes the condition check.  On the four other debug
    classes (software step, hardware breakpoint, BKPT, BRK) it returns 0
    with the same exit reason and syndrome and debug.arch.far is left as it
    was. *)
Theorem kvm_handle_guest_debug_watchpoint (exception_index : Z) (w : world) :
  let v := w_vcpu w in
  let hsr := kvm_vcpu_get_hsr v in
  let ec := ESR_ELx_EC hsr in
  let debug_run (far : Z) :=
    {| exit_reason := KVM_EXIT_DEBUG; debug_arch_hsr := hsr;
       debug_arch_far := far |} in
  (ec = ESR_ELx_EC_WATCHPT_LOW -> fault_far_el2 v = 0x1000 ->
   kvm_handle_guest_debug w =
   (0, {| w_vcpu := v; w_run := debug_run 0x1000; w_log := w_log w |}) /\
   (ARM_SERROR_PENDING exception_index = false ->
    ARM_EXCEPTION_CODE exception_index = ARM_EXCEPTION_TRAP ->
    kvm_condition_valid v = true ->
    handle_exit exception_index w =
    Some (0, {| w_vcpu := v; w_run := debug_run 0x1000;
                w_log := w_log w ++
                         [Lookup_arm_exit_handlers ESR_ELx_EC_WATCHPT_LOW] |})))
  /\
  (ec = ESR_ELx_EC_SOFTSTP_LOW \/ ec = ESR_ELx_EC_BREAKPT_LOW \/
   ec = ESR_ELx_EC_BKPT32 \/ ec = ESR_ELx_EC_BRK64 ->
   kvm_handle_guest_debug w =
   (0, {| w_vcpu := v; w_run := debug_run (debug_arch_far (w_run w));
          w_log := w_log w |})).
Proof.
  cbv zeta. split.
  - intros Hec Hfar. split.
    + rewrite kvm_handle_guest_debug_far by assumption. now rewrite Hfar.
    + intros Hpending Hcode Hcond.
      unfold handle_exit. rewrite Hpending, Hcode, Hcond.
      change (ARM_EXCEPTION_TRAP =? ARM_EXCEPTION_IRQ) with false.
      change (ARM_EXCEPTION_TRAP =? ARM_EXCEPTION_EL1_SERROR) with false.
      change (ARM_EXCEPTION_TRAP =? ARM_EXCEPTION_TRAP) with true.
      cbn [negb]. unfold kvm_get_exit_handler. run_handler.
      rewrite u8_ESR_ELx_EC, Hec.
      change (arm_exit_handlers !! Z.to_nat ESR_ELx_EC_WATCHPT_LOW)
        with (Some fn_kvm_handle_guest_debug).
      cbn [call_exit_handler].
      rewrite kvm_handle_guest_debug_far by (cbn [w_vcpu]; assumption).
      cbn [w_vcpu w_run w_log]. now rewrite Hfar.
  - intros Hec. unfold kvm_handle_guest_debug. run_handler.
    destruct Hec as [Hec | [Hec | [Hec | Hec]]]; rewrite Hec; reflexivity.
Qed.

End debug.

(** C10.  When the debug handler is entered on a class that is none of the
    five debug classes it returns -1, yet it has already written
    KVM_EXIT_DEBUG to exit_reason and the syndrome to debug.arch.hsr: a run
    structure that held another exit reason or another syndrome on entry is
    not the same on return. *)
Theorem kvm_handle_guest_debug_unhandled (w : world) :
  let v := w_vcpu w in
  let hsr := kvm_vcpu_get_hsr v in
  let ec := ESR_ELx_EC hsr in
  ec <> ESR_ELx_EC_WATCHPT_LOW -> ec <> ESR_ELx_EC_SOFTSTP_LOW ->
  ec <> ESR_ELx_EC_BREAKPT_LOW -> ec <> ESR_ELx_EC_BKPT32 ->
  ec <> ESR_ELx_EC_BRK64 ->
  kvm_handle_guest_debug w =
  (-1, {| w_vcpu := v;
          w_run := {| exit_reason := KVM_EXIT_DEBUG;
                      debug_arch_hsr := hsr;
                      debug_arch_far := debug_arch_far (w_run w) |};
          w_log := w_log w ++ [kvm_err_unhandled_case hsr] |}) /\
  (exit_reason (w_run w) <> KVM_EXIT_DEBUG \/ debug_arch_hsr (w_run w) <> hsr ->
   w_run (snd (kvm_handle_guest_debug w)) <> w_run w).
Proof.
  cbv zeta. intros Hwp Hss Hbp Hbk Hbr.
  assert (Hrun : kvm_handle_guest_debug w =
    (-1, {| w_vcpu := w_vcpu w;
            w_run := {| exit_reason := KVM_EXIT_DEBUG;
                        debug_arch_hsr := kvm_vcpu_get_hsr (w_vcpu w);
                        debug_arch_far := debug_arch_far (w_run w) |};
            w_log := w_log w ++
                     [kvm_err_unhandled_case (kvm_vcpu_get_hsr (w_vcpu w))] |})).
  { unfold kvm_handle_guest_debug, is_debug_class. run_handler.
    apply Z.eqb_neq in Hwp, Hss, Hbp, Hbk, Hbr.
    rewrite Hwp, Hss, Hbp, Hbk, Hbr. reflexivity. }
  split; [exact Hrun |].
  rewrite Hrun. cbn [snd w_run]. intros Hdiff Heq.
  destruct (w_run w) as [reason rhsr rfar]. cbn in Hdiff.
  injection Heq as Hreason Hhsr. destruct Hdiff as [Hd | Hd]; congruence.
Qed.

Lemma kvm_handle_guest_debug_watchpoint_witness :
  let H := sample_collaborators true false 0 in
  let esr := mk_esr ESR_ELx_EC_WATCHPT_LOW true 0 in
  let v :=
    {| regs_pc := 0x8000; regs_pstate := PSR_MODE_EL1h; regs_x0 := 0;
       fault_esr_el2 := esr; fault_far_el2 := 0x1000;
       sys_HCR_EL2 := 0; sys_CPTR_EL2 := 0;
       sreg_ELR_EL2 := 0; sreg_SPSR_EL2 := 0;
       stat := {| hvc_exit_stat := 0; wfe_exit_stat := 0; wfi_exit_stat := 0 |};
       requests := 0; exclusive_pending := false |} in
  handle_exit ARM_EXCEPTION_TRAP (sample_world v) =
  Some (0, {| w_vcpu := v;
              w_run := {| exit_reason := KVM_EXIT_DEBUG;
                          debug_arch_hsr := esr;
                          debug_arch_far := 0x1000 |};
              w_log := [Lookup_arm_exit_handlers ESR_ELx_EC_WATCHPT_LOW] |}).
Proof.
  intros H esr v.
  apply (@kvm_handle_guest_debug_watchpoint H ARM_EXCEPTION_TRAP (sample_world v));
    reflexivity.
Defined.

Lemma kvm_handle_guest_debug_unhandled_witness :
  let v := sample_vcpu 0x8000 (mk_esr ESR_ELx_EC_WFx true 0) 0 0 in
  kvm_handle_guest_debug (sample_world v) =
  (-1, {| w_vcpu := v;
          w_run := {| exit_reason := KVM_EXIT_DEBUG;
                      debug_arch_hsr := mk_esr ESR_ELx_EC_WFx true 0;
                      debug_arch_far := 0 |};
          w_log := [kvm_err_unhandled_case (mk_esr ESR_ELx_EC_WFx true 0)] |}).
Proof.
  intros v.
  apply (kvm_handle_guest_debug_unhandled (sample_world v));
    vm_compute; discriminate.
Defined.

(** * Further properties of handle_exit.c *)

(** ** The top-level switch *)

Lemma handle_exit_trap `{!Collaborators}
    (exception_index : Z) (w : world) (fn : exit_handle_fn) :
  ARM_SERROR_PENDING exception_index = false ->
  ARM_EXCEPTION_CODE exception_index = ARM_EXCEPTION_TRAP ->
  kvm_condition_valid (w_vcpu w) = true ->
  arm_exit_handlers !! Z.to_nat (ESR_ELx_EC (kvm_vcpu_get_hsr (w_vcpu w)))
  = Some fn ->
  handle_exit exception_index w =
  Some (call_exit_handler fn
          {| w_vcpu := w_vcpu w; w_run := w_run w;
             w_log := w_log w ++
                      [Lookup_arm_exit_handlers
                         (ESR_ELx_EC (kvm_vcpu_get_hsr (w_vcpu w)))] |}).
Proof.
  intros Hpending Hcode Hcond Htbl.
  unfold handle_exit. rewrite Hpending, Hcode, Hcond.
  change (ARM_EXCEPTION_TRAP =? ARM_EXCEPTION_IRQ) with false.
  change (ARM_EXCEPTION_TRAP =? ARM_EXCEPTION_EL1_SERROR) with false.
  change (ARM_EXCEPTION_TRAP =? ARM_EXCEPTION_TRAP) with true.
  cbn [negb]. unfold kvm_get_exit_handler. run_handler.
  rewrite u8_ESR_ELx_EC, Htbl. reflexivity.
Qed.

Lemma arm_exit_handlers_designated_scan :
  forallb
    (fun d => bool_decide (arm_exit_handlers !! Z.to_nat (fst d) = Some (snd d)))
    arm_exit_handlers_designated = true.
Proof. vm_compute. reflexivity. Qed.

Lemma arm_exit_handlers_debug_scan :
  forallb
    (fun n =>
       negb (bool_decide
               (arm_exit_handlers !! n = Some fn_kvm_handle_guest_debug)) ||
       (Z.of_nat n =? ESR_ELx_EC_WATCHPT_LOW) || is_debug_class (Z.of_nat n))
    (seq 0 (Z.to_nat (ESR_ELx_EC_MAX + 1))) = true.
Proof. vm_compute. reflexivity. Qed.

Lemma kvm_handle_guest_debug_handled (w : world) :
  let ec := ESR_ELx_EC (kvm_vcpu_get_hsr (w_vcpu w)) in
  (ec =? ESR_ELx_EC_WATCHPT_LOW) || is_debug_class ec = true ->
  exists far,
    kvm_handle_guest_debug w =
    (0, {| w_vcpu := w_vcpu w;
           w_run := {| exit_reason := KVM_EXIT_DEBUG;
                       debug_arch_hsr := kvm_vcpu_get_hsr (w_vcpu w);
                       debug_arch_far := far |};
           w_log := w_log w |}).
Proof.
  cbv zeta. intros Hec.
  unfold kvm_handle_guest_debug. run_handler.
  destruct (_ =? ESR_ELx_EC_WATCHPT_LOW); run_handler.
  - eexists. reflexivity.
  - cbn [orb] in Hec. rewrite Hec. eexists. reflexivity.
Qed.

Section top_level_more.
Context `{!Collaborators}.

(** X1.  When the hyp-stub has taken EL2 back (exception code HYP_GONE, no
    SError pending) handle_exit returns 0 with exit reason
    KVM_EXIT_FAIL_ENTRY; the vcpu is not touched, nothing is called, and
    neither the syndrome nor the condition check matters. *)
Theorem handle_exit_hyp_gone (exception_index : Z) (w : world) :
  ARM_SERROR_PENDING exception_index = false ->
  ARM_EXCEPTION_CODE exception_index = ARM_EXCEPTION_HYP_GONE ->
  handle_exit exception_index w =
  Some (0, {| w_vcpu := w_vcpu w;
              w_run := set_exit_reason KVM_EXIT_FAIL_ENTRY (w_run w);
              w_log := w_log w |}).
Proof.
  intros Hpending Hcode. unfold handle_exit. rewrite Hpending, Hcode.
  reflexivity.
Qed.

(** X2.  An exception code that is none of IRQ, EL1_SERROR, TRAP and
    HYP_GONE is reported and handed to userspace: handle_exit returns 0
    with exit reason KVM_EXIT_INTERNAL_ERROR and leaves the vcpu alone. *)
Theorem handle_exit_unsupported (exception_index : Z) (w : world) :
  ARM_SERROR_PENDING exception_index = false ->
  let code := ARM_EXCEPTION_CODE exception_index in
  code <> ARM_EXCEPTION_IRQ -> code <> ARM_EXCEPTION_EL1_SERROR ->
  code <> ARM_EXCEPTION_TRAP -> code <> ARM_EXCEPTION_HYP_GONE ->
  handle_exit exception_index w =
  Some (0, {| w_vcpu := w_vcpu w;
              w_run := set_exit_reason KVM_EXIT_INTERNAL_ERROR (w_run w);
              w_log := w_log w ++ [kvm_pr_unimpl_unsupported code] |}).
Proof.
  cbv zeta. intros Hpending Hirq Hserror Htrap Hgone.
  apply Z.eqb_neq in Hirq, Hserror, Htrap, Hgone.
  unfold handle_exit. rewrite Hpending, Hirq, Hserror, Htrap, Hgone.
  reflexivity.
Qed.

(** X3.  Without a pending SError, an IRQ exit returns 1 and changes
    nothing at all, and an EL1_SERROR exit injects a virtual abort and
    returns 1 with the PC as it was, also when the syndrome is the one of
    an HVC or SMC: the PC is wound back only on the SError-pending path. *)
Theorem handle_exit_irq_el1_serror (exception_index : Z) (w : world) :
  ARM_SERROR_PENDING exception_index = false ->
  (ARM_EXCEPTION_CODE exception_index = ARM_EXCEPTION_IRQ ->
   handle_exit exception_index w = Some (1, w)) /\
  (ARM_EXCEPTION_CODE exception_index = ARM_EXCEPTION_EL1_SERROR ->
   handle_exit exception_index w =
   Some (1, {| w_vcpu := kvm_inject_vabt (w_vcpu w);
               w_run := w_run w;
               w_log := w_log w ++ [Call c_kvm_inject_vabt] |})).
Proof.
  intros Hpending. unfold handle_exit. rewrite Hpending.
  split; intros Hcode; rewrite Hcode; reflexivity.
Qed.

(** X4.  The lookup in arm_exit_handlers never leaves the array: the
    index is the exception class of the syndrome, at most ESR_ELx_EC_MAX,
    and the array has ESR_ELx_EC_MAX + 1 entries.  So handle_exit has a
    result on every exception index and every state. *)
Theorem handle_exit_in_bounds (exception_index : Z) (w : world) :
  (Z.to_nat (u8 (ESR_ELx_EC (kvm_vcpu_get_hsr (w_vcpu w))))
   < length arm_exit_handlers)%nat /\
  exists r w', handle_exit exception_index w = Some (r, w').
Proof.
  split.
  - rewrite length_arm_exit_handlers, u8_ESR_ELx_EC.
    pose proof (ESR_ELx_EC_range (kvm_vcpu_get_hsr (w_vcpu w))). lia.
  - destruct (handle_exit_some exception_index w) as [[r w'] Hr].
    now exists r, w'.
Qed.

(** X5.  No designated initialiser of arm_exit_handlers is overridden by a
    later one: each listed class reads back the handler listed for it, and
    a trap exit of that class that passes the condition check runs that
    handler, on the state handle_exit was entered with. *)
Theorem arm_exit_handlers_dispatch
    (ec : Z) (fn : exit_handle_fn) (exception_index : Z) (w : world) :
  In (ec, fn) arm_exit_handlers_designated ->
  arm_exit_handlers !! Z.to_nat ec = Some fn /\
  (ARM_SERROR_PENDING exception_index = false ->
   ARM_EXCEPTION_CODE exception_index = ARM_EXCEPTION_TRAP ->
   kvm_condition_valid (w_vcpu w) = true ->
   ESR_ELx_EC (kvm_vcpu_get_hsr (w_vcpu w)) = ec ->
   handle_exit exception_index w =
   Some (call_exit_handler fn
           {| w_vcpu := w_vcpu w; w_run := w_run w;
              w_log := w_log w ++ [Lookup_arm_exit_handlers ec] |})).
Proof.
  intros Hin.
  assert (Htbl : arm_exit_handlers !! Z.to_nat ec = Some fn).
  { pose proof arm_exit_handlers_designated_scan as Hscan.
    rewrite forallb_forall in Hscan. apply Hscan in Hin.
    now apply bool_decide_eq_true in Hin. }
  split; [exact Htbl |].
  intros Hpending Hcode Hcond Hec.
  rewrite (handle_exit_trap exception_index w fn) by (rewrite ?Hec; assumption).
  now rewrite Hec.
Qed.

(** X6.  The error return of kvm_handle_guest_debug cannot be reached
    through the table: every class that arm_exit_handlers maps to the debug
    handler is one of the five the handler accepts, so a trap exit that is
    dispatched to it returns 0 with exit reason KVM_EXIT_DEBUG and the
    syndrome stored, and logs no error. *)
Theorem handle_exit_debug_never_fails (exception_index : Z) (w : world) :
  let hsr := kvm_vcpu_get_hsr (w_vcpu w) in
  ARM_SERROR_PENDING exception_index = false ->
  ARM_EXCEPTION_CODE exception_index = ARM_EXCEPTION_TRAP ->
  kvm_condition_valid (w_vcpu w) = true ->
  arm_exit_handlers !! Z.to_nat (ESR_ELx_EC hsr)
  = Some fn_kvm_handle_guest_debug ->
  exists far,
    handle_exit exception_index w =
    Some (0, {| w_vcpu := w_vcpu w;
                w_run := {| exit_reason := KVM_EXIT_DEBUG;
                            debug_arch_hsr := hsr;
                            debug_arch_far := far |};
                w_log := w_log w ++
                         [Lookup_arm_exit_handlers (ESR_ELx_EC hsr)] |}).
Proof.
  cbv zeta. intros Hpending Hcode Hcond Htbl.
  rewrite (handle_exit_trap exception_index w fn_kvm_handle_guest_debug)
    by assumption.
  cbn [call_exit_handler].
  pose proof (ESR_ELx_EC_range (kvm_vcpu_get_hsr (w_vcpu w))) as Hrange.
  pose proof arm_exit_handlers_debug_scan as Hscan.
  rewrite forallb_forall in Hscan.
  specialize (Hscan (Z.to_nat (ESR_ELx_EC (kvm_vcpu_get_hsr (w_vcpu w))))).
  rewrite in_seq, Z2Nat.id in Hscan by lia.
  assert (Hlt : (0 <= Z.to_nat (ESR_ELx_EC (kvm_vcpu_get_hsr (w_vcpu w)))
                 < 0 + Z.to_nat (ESR_ELx_EC_MAX + 1))%nat) by lia.
  apply Hscan in Hlt.
  rewrite bool_decide_eq_true_2 in Hlt by assumption. cbn [negb orb] in Hlt.
  match goal with
  | |- context [kvm_handle_guest_debug ?w0] =>
      destruct (kvm_handle_guest_debug_handled w0 Hlt) as [far Hrun]
  end.
  exists far. now rewrite Hrun.
Qed.

(** X7.  A trap exit that passes the condition check and whose class has
    no designated handler ends as an undefined-instruction fault for the
    guest: handle_exit looks the class up, reports it, calls
    kvm_inject_undefined and returns 1; the run structure is not written. *)
Theorem handle_exit_unknown_class (exception_index : Z) (w : world) :
  let hsr := kvm_vcpu_get_hsr (w_vcpu w) in
  ARM_SERROR_PENDING exception_index = false ->
  ARM_EXCEPTION_CODE exception_index = ARM_EXCEPTION_TRAP ->
  kvm_condition_valid (w_vcpu w) = true ->
  ~ In (ESR_ELx_EC hsr) (map fst arm_exit_handlers_designated) ->
  handle_exit exception_index w =
  Some (1, {| w_vcpu := kvm_inject_undefined (w_vcpu w);
              w_run := w_run w;
              w_log := w_log w ++
                       [Lookup_arm_exit_handlers (ESR_ELx_EC hsr);
                        kvm_pr_unimpl_unknown_ec hsr;
                        Call c_kvm_inject_undefined] |}).
Proof.
  cbv zeta. intros Hpending Hcode Hcond Hfree.
  set (ec := ESR_ELx_EC (kvm_vcpu_get_hsr (w_vcpu w))) in *.
  assert (Htbl : arm_exit_handlers !! Z.to_nat ec = Some fn_kvm_handle_unknown_ec).
  { pose proof arm_exit_handlers_scan as Hscan.
    pose proof (ESR_ELx_EC_range (kvm_vcpu_get_hsr (w_vcpu w))) as Hrange.
    fold ec in Hrange.
    rewrite forallb_forall in Hscan.
    specialize (Hscan (Z.to_nat ec)).
    rewrite in_seq, Z2Nat.id in Hscan by lia.
    assert (Hlt : (0 <= Z.to_nat ec < 0 + Z.to_nat (ESR_ELx_EC_MAX + 1))%nat)
      by lia.
    apply Hscan in Hlt. apply orb_true_iff in Hlt as [Hin | Hunk].
    - exfalso. apply Hfree.
      apply existsb_exists in Hin as (x & Hx & Heq).
      apply Z.eqb_eq in Heq. now subst x.
    - now apply bool_decide_eq_true in Hunk. }
  rewrite (handle_exit_trap exception_index w fn_kvm_handle_unknown_ec)
    by assumption.
  fold ec. unfold call_exit_handler, kvm_handle_unknown_ec. run_handler.
  now rewrite <- !app_assoc.
Qed.

(** X8.  Outside the dispatch to a class handler handle_exit never
    returns an error: on every exit that has an SError pending, or whose
    code is not TRAP, or whose condition check fails, the result is 1, or
    it is 0 with exit reason KVM_EXIT_FAIL_ENTRY or
    KVM_EXIT_INTERNAL_ERROR. *)
Theorem handle_exit_error_only_from_handler (exception_index : Z) (w : world) :
  ARM_SERROR_PENDING exception_index = true \/
  ARM_EXCEPTION_CODE exception_index <> ARM_EXCEPTION_TRAP \/
  kvm_condition_valid (w_vcpu w) = false ->
  exists r w',
    handle_exit exception_index w = Some (r, w') /\
    (r = 1 \/
     r = 0 /\ (exit_reason (w_run w') = KVM_EXIT_FAIL_ENTRY \/
               exit_reason (w_run w') = KVM_EXIT_INTERNAL_ERROR)).
Proof.
  intros Hcase. unfold handle_exit.
  destruct (ARM_SERROR_PENDING exception_index).
  { eexists _, _. split; [reflexivity | now left]. }
  destruct (_ =? ARM_EXCEPTION_IRQ).
  { eexists _, _. split; [reflexivity | now left]. }
  destruct (_ =? ARM_EXCEPTION_EL1_SERROR).
  { eexists _, _. split; [reflexivity | now left]. }
  destruct (_ =? ARM_EXCEPTION_TRAP) eqn:Htrap.
  { apply Z.eqb_eq in Htrap.
    destruct Hcase as [Hp | [Hc | Hv]]; [discriminate | contradiction |].
    rewrite Hv. eexists _, _. split; [reflexivity | now left]. }
  destruct (_ =? ARM_EXCEPTION_HYP_GONE).
  { eexists _, _. split; [reflexivity |]. right. split; [reflexivity |].
    now left. }
  eexists _, _. split; [reflexivity |]. right. split; [reflexivity |].
  now right.
Qed.

End top_level_more.

(** ** The privileged-call handlers, branch by branch *)

Section call_handlers_more.
Context `{!Collaborators}.

(** X9.  handle_hvc never skips the trapped instruction, on any branch and
    in either configuration.  Built without CONFIG_KVM_ARM_NESTED_PV it
    never returns an error either: its result is 1 or the non-negative
    result of kvm_psci_call. *)
Theorem handle_hvc_no_skip_no_error (w : world) :
  (exists evs,
     w_log (snd (handle_hvc w)) = w_log w ++ evs /\
     forall is_wide_instr, ~ In (Call (c_kvm_skip_instr is_wide_instr)) evs) /\
  (CONFIG_KVM_ARM_NESTED_PV = false -> 0 <= fst (handle_hvc w)).
Proof.
  split.
  - unfold handle_hvc, handle_hvc_psci. run_handler.
    repeat match goal with
           | |- context [if ?b then _ else _] => destruct b eqn:?
           end;
      run_handler; rewrite <- ?app_assoc;
      (eexists; split; [reflexivity | cbn; intuition discriminate]).
  - intros Hpv. unfold handle_hvc, handle_hvc_psci. run_handler.
    rewrite Hpv. cbn [negb].
    destruct (nested_virt_in_use _); run_handler; [lia |].
    destruct (_ <? 0) eqn:Hneg; run_handler; [lia |].
    apply Z.ltb_ge in Hneg. exact Hneg.
Qed.

(** X10.  On a vcpu with nested virtualization, and built without
    CONFIG_KVM_ARM_NESTED_PV, handle_hvc hands the HVC to the virtual EL2
    with the syndrome of the trap and returns 1 whatever
    kvm_inject_nested_sync returned; kvm_psci_call is not called. *)
Theorem handle_hvc_nested_forward (w : world) :
  CONFIG_KVM_ARM_NESTED_PV = false ->
  nested_virt_in_use (hvc_exit_stat_incr (w_vcpu w)) = true ->
  let v := w_vcpu w in
  let hsr := kvm_vcpu_get_hsr v in
  handle_hvc w =
  (1, {| w_vcpu := snd (kvm_inject_nested_sync (hvc_exit_stat_incr v) hsr);
         w_run := w_run w;
         w_log := w_log w ++
                  [trace_kvm_hvc_arm64 (regs_pc v) (regs_x0 v)
                                       (kvm_vcpu_hvc_get_imm v);
                   Call (c_kvm_inject_nested_sync hsr)] |}).
Proof.
  cbv zeta. intros Hpv Hnested.
  unfold handle_hvc. run_handler. rewrite Hpv, Hnested. cbn [negb].
  run_handler. now rewrite <- app_assoc.
Qed.

(** X11.  On a vcpu without nested virtualization an HVC is a PSCI call.
    A negative result of kvm_psci_call becomes an undefined-instruction
    fault and the return value 1; any other result is returned as it is,
    and then the vcpu is the one kvm_psci_call left. *)
Theorem handle_hvc_psci_path (w : world) :
  nested_virt_in_use (hvc_exit_stat_incr (w_vcpu w)) = false ->
  let v := w_vcpu w in
  let trace :=
    trace_kvm_hvc_arm64 (regs_pc v) (regs_x0 v) (kvm_vcpu_hvc_get_imm v) in
  let r := fst (kvm_psci_call (hvc_exit_stat_incr v)) in
  let v' := snd (kvm_psci_call (hvc_exit_stat_incr v)) in
  (r < 0 ->
   handle_hvc w =
   (1, {| w_vcpu := kvm_inject_undefined v'; w_run := w_run w;
          w_log := w_log w ++
                   [trace; Call c_kvm_psci_call; Call c_kvm_inject_undefined] |}))
  /\
  (0 <= r ->
   handle_hvc w =
   (r, {| w_vcpu := v'; w_run := w_run w;
          w_log := w_log w ++ [trace; Call c_kvm_psci_call] |})).
Proof.
  cbv zeta. intros Hnested.
  unfold handle_hvc, handle_hvc_psci. run_handler. rewrite Hnested.
  run_handler.
  split; intros Hr.
  - apply Z.ltb_lt in Hr. rewrite Hr. run_handler.
    now rewrite <- !app_assoc.
  - apply Z.ltb_ge in Hr. rewrite Hr. run_handler.
    now rewrite <- !app_assoc.
Qed.

(** X12.  Built with CONFIG_KVM_ARM_NESTED_PV, on a vcpu with nested
    virtualization, handle_hvc returns what handle_hvc_nested returned,
    negative or not, without calling kvm_psci_call, unless that is -EINVAL;
    on -EINVAL it goes on to kvm_psci_call. *)
Theorem handle_hvc_nested_pv (w : world) :
  CONFIG_KVM_ARM_NESTED_PV = true ->
  nested_virt_in_use (hvc_exit_stat_incr (w_vcpu w)) = true ->
  let v := w_vcpu w in
  let r := fst (handle_hvc_nested (hvc_exit_stat_incr v)) in
  let w1 :=
    {| w_vcpu := snd (handle_hvc_nested (hvc_exit_stat_incr v));
       w_run := w_run w;
       w_log := w_log w ++
                [trace_kvm_hvc_arm64 (regs_pc v) (regs_x0 v)
                                     (kvm_vcpu_hvc_get_imm v);
                 Call c_handle_hvc_nested] |} in
  (r <> - EINVAL -> handle_hvc w = (r, w1)) /\
  (r = - EINVAL -> handle_hvc w = handle_hvc_psci w1).
Proof.
  cbv zeta. intros Hpv Hnested.
  unfold handle_hvc. run_handler. rewrite Hpv, Hnested. cbn [negb].
  run_handler.
  set (r := fst (handle_hvc_nested _)).
  split; intros Hr.
  - apply Z.eqb_neq in Hr. rewrite Hr. cbn [negb]. rewrite andb_true_r.
    destruct (r <? 0) eqn:Hneg; run_handler.
    + now rewrite <- app_assoc.
    + apply Z.ltb_ge in Hneg.
      assert (Hge : (r >=? 0) = true) by (apply Z.geb_le; lia).
      rewrite Hge. run_handler. now rewrite <- app_assoc.
  - rewrite Hr.
    change (- EINVAL <? 0) with true.
    change (- EINVAL =? - EINVAL) with true.
    change (- EINVAL >=? 0) with false. cbn [andb negb].
    now rewrite <- app_assoc.
Qed.

(** X13.  An SMC that is forwarded (forward_nv_traps and TSC in the
    virtual HCR_EL2) is handed to the virtual EL2 whatever its immediate:
    the result is the one of kvm_inject_nested_sync and nothing else is
    called. *)
Theorem handle_smc_forwarded (w : world) :
  let v := w_vcpu w in
  let hsr := kvm_vcpu_get_hsr v in
  forward_nv_traps v = true ->
  Z.land (sys_HCR_EL2 v) HCR_TSC <> 0 ->
  handle_smc w =
  (fst (kvm_inject_nested_sync v hsr),
   {| w_vcpu := snd (kvm_inject_nested_sync v hsr);
      w_run := w_run w;
      w_log := w_log w ++ [Call (c_kvm_inject_nested_sync hsr)] |}).
Proof.
  cbv zeta. intros Hfwd Htsc. apply Z.eqb_neq in Htsc.
  unfold handle_smc. run_handler. rewrite Hfwd, Htsc. reflexivity.
Qed.

(** X14.  An SMC #0 that is not forwarded is a PSCI call.  When
    kvm_psci_call fails the guest gets an undefined-instruction fault, the
    handler returns 1 and the instruction is not skipped; when it succeeds
    its result is returned and the instruction is skipped afterwards, on
    the vcpu kvm_psci_call left, by 4 or 2 according to the IL bit. *)
Theorem handle_smc_psci_path (w : world) :
  let v := w_vcpu w in
  forward_nv_traps v && negb (Z.land (sys_HCR_EL2 v) HCR_TSC =? 0) = false ->
  kvm_vcpu_hvc_get_imm v = 0 ->
  let r := fst (kvm_psci_call v) in
  let v' := snd (kvm_psci_call v) in
  let il := kvm_vcpu_trap_il_is32bit v' in
  (r < 0 ->
   handle_smc w =
   (1, {| w_vcpu := kvm_inject_undefined v'; w_run := w_run w;
          w_log := w_log w ++
                   [Call c_kvm_psci_call; Call c_kvm_inject_undefined] |})) /\
  (0 <= r ->
   handle_smc w =
   (r, {| w_vcpu := kvm_skip_instr il v'; w_run := w_run w;
          w_log := w_log w ++
                   [Call c_kvm_psci_call; Call (c_kvm_skip_instr il)] |}) /\
   regs_pc (kvm_skip_instr il v') = u64 (regs_pc v' + (if il then 4 else 2))).
Proof.
  cbv zeta. intros Hfwd Himm.
  unfold handle_smc. run_handler. rewrite Hfwd. run_handler. rewrite Himm.
  change (negb (0 =? 0)) with false. run_handler.
  split; intros Hr.
  - apply Z.ltb_lt in Hr. rewrite Hr. run_handler.
    now rewrite <- !app_assoc.
  - apply Z.ltb_ge in Hr. rewrite Hr. run_handler.
    split; [now rewrite <- !app_assoc | reflexivity].
Qed.

End call_handlers_more.

(** ** The wait-instruction handler with nested virtualization *)

Section wait_handler_more.
Context `{!Collaborators}.

(** X15.  On a vcpu with nested virtualization, whatever handle_wfx_nested
    returns other than -EINVAL is the result of kvm_handle_wfx, error or
    not: no counter is incremented, the vcpu is neither blocked nor yielded
    and the instruction is not skipped. *)
Theorem kvm_handle_wfx_nested_result (w : world) :
  let v := w_vcpu w in
  let is_wfe := negb (Z.land (kvm_vcpu_get_hsr v) ESR_ELx_WFx_ISS_WFE =? 0) in
  nested_virt_in_use v = true ->
  fst (handle_wfx_nested v is_wfe) <> - EINVAL ->
  kvm_handle_wfx w =
  (fst (handle_wfx_nested v is_wfe),
   {| w_vcpu := snd (handle_wfx_nested v is_wfe);
      w_run := w_run w;
      w_log := w_log w ++ [Call (c_handle_wfx_nested is_wfe)] |}).
Proof.
  cbv zeta. intros Hnested Hr.
  unfold kvm_handle_wfx. run_handler. rewrite Hnested. run_handler.
  set (r := fst (handle_wfx_nested _ _)) in *.
  apply Z.eqb_neq in Hr. rewrite Hr. cbn [negb]. rewrite andb_true_r.
  destruct (r <? 0) eqn:Hneg; [reflexivity |].
  apply Z.ltb_ge in Hneg.
  assert (Hge : (r >=? 0) = true) by (apply Z.geb_le; lia).
  now rewrite Hge.
Qed.

(** X16.  A WFE trap never blocks the vcpu and never clears a request, and
    a WFI trap never yields: on every path of kvm_handle_wfx,
    kvm_vcpu_block and kvm_clear_request are called only for WFI and
    kvm_vcpu_on_spin only for WFE. *)
Theorem kvm_handle_wfx_wfe_never_blocks (w : world) :
  let is_wfe :=
    negb (Z.land (kvm_vcpu_get_hsr (w_vcpu w)) ESR_ELx_WFx_ISS_WFE =? 0) in
  exists evs,
    w_log (snd (kvm_handle_wfx w)) = w_log w ++ evs /\
    (is_wfe = true ->
     ~ In (Call c_kvm_vcpu_block) evs /\
     forall req, ~ In (Call (c_kvm_clear_request req)) evs) /\
    (is_wfe = false -> ~ In (Call c_kvm_vcpu_on_spin) evs).
Proof.
  cbv zeta.
  unfold kvm_handle_wfx, kvm_handle_wfx_local. run_handler.
  destruct (negb (Z.land (kvm_vcpu_get_hsr (w_vcpu w)) ESR_ELx_WFx_ISS_WFE =? 0));
    repeat match goal with
           | |- context [if ?b then _ else _] => destruct b eqn:?
           end;
    run_handler; rewrite <- ?app_assoc;
    (eexists; split; [reflexivity |]);
    split; intros Hvariant; try discriminate Hvariant;
    try (split; [| intros req]); cbn; intuition discriminate.
Qed.

End wait_handler_more.

(** ** The debug handler and exception return, in full *)

(** X17.  kvm_handle_guest_debug never touches the vcpu and always
    leaves exit_reason = KVM_EXIT_DEBUG and the syndrome in debug.arch.hsr.
    It returns 0 exactly on the five debug classes and -1 on every other
    class, and it writes debug.arch.far on the watchpoint class only. *)
Theorem kvm_handle_guest_debug_result (w : world) :
  let hsr := kvm_vcpu_get_hsr (w_vcpu w) in
  let ec := ESR_ELx_EC hsr in
  let handled :=
    ec = ESR_ELx_EC_WATCHPT_LOW \/ ec = ESR_ELx_EC_SOFTSTP_LOW \/
    ec = ESR_ELx_EC_BREAKPT_LOW \/ ec = ESR_ELx_EC_BKPT32 \/
    ec = ESR_ELx_EC_BRK64 in
  let r := kvm_handle_guest_debug w in
  w_vcpu (snd r) = w_vcpu w /\
  exit_reason (w_run (snd r)) = KVM_EXIT_DEBUG /\
  debug_arch_hsr (w_run (snd r)) = hsr /\
  (fst r = 0 <-> handled) /\
  (fst r = -1 <-> ~ handled) /\
  (ec <> ESR_ELx_EC_WATCHPT_LOW ->
   debug_arch_far (w_run (snd r)) = debug_arch_far (w_run w)).
Proof.
  cbv zeta. unfold kvm_handle_guest_debug, is_debug_class. run_handler.
  set (ec := ESR_ELx_EC (kvm_vcpu_get_hsr (w_vcpu w))).
  destruct (ec =? ESR_ELx_EC_WATCHPT_LOW) eqn:Hwp; run_handler.
  { apply Z.eqb_eq in Hwp. cbn [set_exit_reason set_debug_arch_hsr
      set_debug_arch_far exit_reason debug_arch_hsr debug_arch_far].
    repeat split; try tauto; try discriminate; try (intros Hn; now elim Hn). }
  destruct (ec =? ESR_ELx_EC_SOFTSTP_LOW) eqn:Hss;
  destruct (ec =? ESR_ELx_EC_BREAKPT_LOW) eqn:Hbp;
  destruct (ec =? ESR_ELx_EC_BKPT32) eqn:Hbk;
  destruct (ec =? ESR_ELx_EC_BRK64) eqn:Hbr;
    cbn [orb]; run_handler;
    cbn [set_exit_reason set_debug_arch_hsr exit_reason debug_arch_hsr
         debug_arch_far];
    rewrite ?Z.eqb_eq, ?Z.eqb_neq in *;
    repeat split; try tauto; try discriminate; try (intros Hn; now elim Hn);
    intros [? | [? | [? | [? | ?]]]]; contradiction.
Qed.

Section eret_more.
Context `{!Collaborators}.

(** X18.  An ERET that is forwarded (forward_nv_traps) is not emulated:
    after the trace event the trap is handed to the virtual EL2 with the PC
    and the status of the vcpu as they were on entry, and the result of
    kvm_inject_nested_sync is returned. *)
Theorem kvm_handle_eret_forwarded (w : world) :
  let v := w_vcpu w in
  let hsr := kvm_vcpu_get_hsr v in
  forward_nv_traps v = true ->
  kvm_handle_eret w =
  (fst (kvm_inject_nested_sync v hsr),
   {| w_vcpu := snd (kvm_inject_nested_sync v hsr);
      w_run := w_run w;
      w_log := w_log w ++
               [trace_kvm_nested_eret (sreg_ELR_EL2 v) (sreg_SPSR_EL2 v);
                Call (c_kvm_inject_nested_sync hsr)] |}).
Proof.
  cbv zeta. intros Hfwd.
  unfold kvm_handle_eret. run_handler. rewrite Hfwd. run_handler.
  now rewrite <- app_assoc.
Qed.

(** X19.  An emulated ERET writes the PC and the status and nothing else:
    x0, the syndrome and fault address, the virtual system registers
    (ELR_EL2 and SPSR_EL2 included), the counters, the requests and the run
    structure are as on entry, and apart from the trace event nothing is
    logged, so no collaborator is called. *)
Theorem kvm_handle_eret_frame (w : world) :
  forward_nv_traps (w_vcpu w) = false ->
  let v := w_vcpu w in
  let w' := snd (kvm_handle_eret w) in
  let v' := w_vcpu w' in
  regs_x0 v' = regs_x0 v /\
  fault_esr_el2 v' = fault_esr_el2 v /\ fault_far_el2 v' = fault_far_el2 v /\
  sys_HCR_EL2 v' = sys_HCR_EL2 v /\ sys_CPTR_EL2 v' = sys_CPTR_EL2 v /\
  sreg_ELR_EL2 v' = sreg_ELR_EL2 v /\ sreg_SPSR_EL2 v' = sreg_SPSR_EL2 v /\
  stat v' = stat v /\ requests v' = requests v /\
  exclusive_pending v' = exclusive_pending v /\
  w_run w' = w_run w /\
  w_log w' =
  w_log w ++ [trace_kvm_nested_eret (sreg_ELR_EL2 v) (sreg_SPSR_EL2 v)].
Proof.
  cbv zeta. intros Hfwd.
  unfold kvm_handle_eret. run_handler. rewrite Hfwd. run_handler.
  destruct (vcpu_mode_el1 _ && _ && _); run_handler;
    [destruct (_ =? PSR_MODE_EL1h); run_handler |];
    repeat split; reflexivity.
Qed.

(** X20.  When the mode rewrite of an emulated ERET applies (restored mode
    EL1, E2H and TGE set) the vcpu always ends in the virtual EL2: the final
    mode is EL2h if SPSR_EL2 said EL1h and EL2t for every other value of
    the mode field. *)
Theorem kvm_handle_eret_ends_in_el2 (w : world) :
  let v := w_vcpu w in
  forward_nv_traps v = false ->
  let restored := set_cpsr (sreg_SPSR_EL2 v) (set_pc (sreg_ELR_EL2 v) v) in
  vcpu_mode_el1 restored && vcpu_el2_e2h_is_set restored &&
  vcpu_el2_tge_is_set restored = true ->
  let mode := Z.land (sreg_SPSR_EL2 v) PSR_MODE_MASK in
  let mode' :=
    Z.land (regs_pstate (w_vcpu (snd (kvm_handle_eret w)))) PSR_MODE_MASK in
  (mode = PSR_MODE_EL1h -> mode' = PSR_MODE_EL2h) /\
  (mode <> PSR_MODE_EL1h -> mode' = PSR_MODE_EL2t).
Proof.
  cbv zeta. intros Hfwd Hvhe.
  unfold kvm_handle_eret. run_handler. rewrite Hfwd. run_handler.
  rewrite Hvhe. run_handler.
  rewrite u32_mode_bits. cbn [regs_pstate set_cpsr set_pc].
  split; intros Hmode.
  - rewrite Hmode. change (PSR_MODE_EL1h =? PSR_MODE_EL1h) with true.
    run_handler. cbn [regs_pstate set_cpsr]. now apply mode_bits_replaced.
  - apply Z.eqb_neq in Hmode. rewrite Hmode.
    run_handler. cbn [regs_pstate set_cpsr]. now apply mode_bits_replaced.
Qed.

(** X21.  The PC that the SError-pending path winds back on an HVC or SMC
    is the PC before the instruction in the sense of kvm_skip_instr:
    skipping the instruction on the vcpu handed to kvm_inject_vabt gives
    the PC of entry again (for a PC within 64 bits). *)
Theorem handle_exit_serror_rollback_undoes_skip (exception_index : Z) (w : world) :
  let v := w_vcpu w in
  let il := kvm_vcpu_trap_il_is32bit v in
  let rolled_back := set_pc (u64 (regs_pc v - (if il then 4 else 2))) v in
  ARM_SERROR_PENDING exception_index = true ->
  is_call_class (ESR_ELx_EC (kvm_vcpu_get_hsr v)) = true ->
  0 <= regs_pc v < 2 ^ 64 ->
  handle_exit exception_index w =
  Some (1, {| w_vcpu := kvm_inject_vabt rolled_back;
              w_run := w_run w;
              w_log := w_log w ++ [Call c_kvm_inject_vabt] |}) /\
  regs_pc (kvm_skip_instr (kvm_vcpu_trap_il_is32bit rolled_back) rolled_back)
  = regs_pc v.
Proof.
  cbv zeta. intros Hpending Hcall Hpc. split.
  - unfold handle_exit. rewrite Hpending. run_handler.
    rewrite u8_ESR_ELx_EC, Hcall. run_handler. reflexivity.
  - unfold kvm_skip_instr, kvm_vcpu_trap_il_is32bit, kvm_vcpu_get_hsr.
    cbn [regs_pc set_pc set_exclusive_pending fault_esr_el2].
    set (adj := if negb _ then 4 else 2).
    unfold u64. rewrite Zplus_mod_idemp_l.
    replace (regs_pc (w_vcpu w) - adj + adj) with (regs_pc (w_vcpu w)) by lia.
    now apply Z.mod_small.
Qed.

End eret_more.

(** ** The further properties on concrete exits *)

Lemma handle_exit_hyp_gone_witness :
  let H := sample_collaborators false true 0 in
  let v := sample_vcpu 0x8000 (mk_esr ESR_ELx_EC_HVC64 true 7) HCR_NV 0 in
  handle_exit ARM_EXCEPTION_HYP_GONE (sample_world v) =
  Some (0, {| w_vcpu := v;
              w_run := set_exit_reason KVM_EXIT_FAIL_ENTRY sample_run;
              w_log := [] |}).
Proof.
  intros H v.
  apply (@handle_exit_hyp_gone H ARM_EXCEPTION_HYP_GONE (sample_world v));
    reflexivity.
Defined.

Lemma handle_exit_unsupported_witness :
  let H := sample_collaborators true false 0 in
  let v := sample_vcpu 0x8000 (mk_esr ESR_ELx_EC_WFx true 0) 0 0 in
  handle_exit 5 (sample_world v) =
  Some (0, {| w_vcpu := v;
              w_run := set_exit_reason KVM_EXIT_INTERNAL_ERROR sample_run;
              w_log := [kvm_pr_unimpl_unsupported 5] |}).
Proof.
  intros H v.
  apply (@handle_exit_unsupported H 5 (sample_world v));
    vm_compute; congruence.
Defined.

Lemma handle_exit_irq_el1_serror_witness :
  let H := sample_collaborators true false 0 in
  let v := sample_vcpu 0x8000 (mk_esr ESR_ELx_EC_HVC64 true 0) 0 0 in
  handle_exit ARM_EXCEPTION_EL1_SERROR (sample_world v) =
  Some (1, {| w_vcpu := v; w_run := sample_run;
              w_log := [Call c_kvm_inject_vabt] |}).
Proof.
  intros H v.
  apply (@handle_exit_irq_el1_serror H ARM_EXCEPTION_EL1_SERROR (sample_world v));
    reflexivity.
Defined.

Lemma arm_exit_handlers_dispatch_witness :
  let H := sample_collaborators true false 0 in
  let v := sample_vcpu 0x8000 (mk_esr ESR_ELx_EC_HVC64 true 0) 0 0 in
  arm_exit_handlers !! Z.to_nat ESR_ELx_EC_HVC64 = Some fn_handle_hvc /\
  handle_exit ARM_EXCEPTION_TRAP (sample_world v) =
  Some (handle_hvc
          {| w_vcpu := v; w_run := sample_run;
             w_log := [Lookup_arm_exit_handlers ESR_ELx_EC_HVC64] |}).
Proof.
  intros H v.
  assert (Hin : In (ESR_ELx_EC_HVC64, fn_handle_hvc) arm_exit_handlers_designated)
    by (cbn; tauto).
  destruct (@arm_exit_handlers_dispatch H ESR_ELx_EC_HVC64 fn_handle_hvc
              ARM_EXCEPTION_TRAP (sample_world v) Hin) as [Htbl Hrun].
  exact (conj Htbl (Hrun eq_refl eq_refl eq_refl eq_refl)).
Defined.

Lemma handle_exit_debug_never_fails_witness :
  let H := sample_collaborators true false 0 in
  let esr := mk_esr ESR_ELx_EC_BRK64 true 0 in
  let v := sample_vcpu 0x8000 esr 0 0 in
  exists far,
    handle_exit ARM_EXCEPTION_TRAP (sample_world v) =
    Some (0, {| w_vcpu := v;
                w_run := {| exit_reason := KVM_EXIT_DEBUG;
                            debug_arch_hsr := esr;
                            debug_arch_far := far |};
                w_log := [Lookup_arm_exit_handlers ESR_ELx_EC_BRK64] |}).
Proof.
  intros H esr v.
  apply (@handle_exit_debug_never_fails H ARM_EXCEPTION_TRAP (sample_world v));
    reflexivity.
Defined.

Lemma handle_exit_unknown_class_witness :
  let H := sample_collaborators true false 0 in
  let esr := mk_esr 0x11 true 0 in
  let v := sample_vcpu 0x8000 esr 0 0 in
  handle_exit ARM_EXCEPTION_TRAP (sample_world v) =
  Some (1, {| w_vcpu := v; w_run := sample_run;
              w_log := [Lookup_arm_exit_handlers 0x11;
                        kvm_pr_unimpl_unknown_ec esr;
                        Call c_kvm_inject_undefined] |}).
Proof.
  intros H esr v.
  apply (@handle_exit_unknown_class H ARM_EXCEPTION_TRAP (sample_world v));
    try reflexivity.
  vm_compute. intuition discriminate.
Defined.

Lemma handle_exit_error_only_from_handler_witness :
  let H := sample_collaborators true false 0 in
  let v := sample_vcpu 0x8000 (mk_esr ESR_ELx_EC_WFx true 0) 0 0 in
  exists r w',
    handle_exit ARM_EXCEPTION_HYP_GONE (sample_world v) = Some (r, w') /\
    (r = 1 \/
     r = 0 /\ (exit_reason (w_run w') = KVM_EXIT_FAIL_ENTRY \/
               exit_reason (w_run w') = KVM_EXIT_INTERNAL_ERROR)).
Proof.
  intros H v.
  apply (@handle_exit_error_only_from_handler H ARM_EXCEPTION_HYP_GONE
           (sample_world v)).
  right. left. vm_compute. discriminate.
Defined.

Lemma handle_hvc_no_skip_no_error_witness :
  let H := sample_collaborators true false (-1) in
  let v := sample_vcpu 0x8000 (mk_esr ESR_ELx_EC_HVC64 true 0) 0 0 in
  0 <= fst (handle_hvc (sample_world v)).
Proof.
  intros H v.
  apply (@handle_hvc_no_skip_no_error H (sample_world v)).
  reflexivity.
Defined.

Lemma handle_hvc_nested_forward_witness :
  let H := sample_collaborators true true 0 in
  let esr := mk_esr ESR_ELx_EC_HVC64 true 0 in
  let v := sample_vcpu 0x8000 esr 0 0 in
  handle_hvc (sample_world v) =
  (1, {| w_vcpu := hvc_exit_stat_incr v; w_run := sample_run;
         w_log := [trace_kvm_hvc_arm64 0x8000 0 0;
                   Call (c_kvm_inject_nested_sync esr)] |}).
Proof.
  intros H esr v.
  apply (@handle_hvc_nested_forward H (sample_world v)); reflexivity.
Defined.

Lemma handle_hvc_psci_path_witness :
  let H := sample_collaborators true false (-1) in
  let v := sample_vcpu 0x8000 (mk_esr ESR_ELx_EC_HVC64 true 0) 0 0 in
  handle_hvc (sample_world v) =
  (1, {| w_vcpu := hvc_exit_stat_incr v; w_run := sample_run;
         w_log := [trace_kvm_hvc_arm64 0x8000 0 0;
                   Call c_kvm_psci_call; Call c_kvm_inject_undefined] |}).
Proof.
  intros H v.
  apply (@handle_hvc_psci_path H (sample_world v)); reflexivity.
Defined.

Lemma handle_hvc_nested_pv_witness :
  let H := sample_collaborators_pv (-1) 0 in
  let v := sample_vcpu 0x8000 (mk_esr ESR_ELx_EC_HVC64 true 0) 0 0 in
  handle_hvc (sample_world v) =
  (-1, {| w_vcpu := hvc_exit_stat_incr v; w_run := sample_run;
          w_log := [trace_kvm_hvc_arm64 0x8000 0 0;
                    Call c_handle_hvc_nested] |}).
Proof.
  intros H v.
  apply (@handle_hvc_nested_pv H (sample_world v)); try reflexivity.
  vm_compute. discriminate.
Defined.

Lemma handle_smc_forwarded_witness :
  let H := sample_collaborators true true 0 in
  let esr := mk_esr ESR_ELx_EC_SMC64 true 0 in
  let v := sample_vcpu 0x8000 esr (Z.lor HCR_NV HCR_TSC) 0 in
  handle_smc (sample_world v) =
  (1, {| w_vcpu := v; w_run := sample_run;
         w_log := [Call (c_kvm_inject_nested_sync esr)] |}).
Proof.
  intros H esr v.
  apply (@handle_smc_forwarded H (sample_world v)).
  - reflexivity.
  - vm_compute. discriminate.
Defined.

Lemma handle_smc_psci_path_witness :
  let H := sample_collaborators true false 0 in
  let esr := mk_esr ESR_ELx_EC_SMC64 true 0 in
  handle_smc (sample_world (sample_vcpu 0x8000 esr 0 0)) =
  (0, {| w_vcpu := kvm_skip_instr true (sample_vcpu 0x8000 esr 0 0);
         w_run := sample_run;
         w_log := [Call c_kvm_psci_call; Call (c_kvm_skip_instr true)] |}).
Proof.
  intros H esr.
  apply (@handle_smc_psci_path H (sample_world (sample_vcpu 0x8000 esr 0 0)));
    reflexivity.
Defined.

Lemma kvm_handle_wfx_nested_result_witness :
  let H := sample_collaborators true true 0 in
  let v := sample_vcpu 0x8000 (mk_esr ESR_ELx_EC_WFx true 1) HCR_TWE 0 in
  kvm_handle_wfx (sample_world v) =
  (1, {| w_vcpu := v; w_run := sample_run;
         w_log := [Call (c_handle_wfx_nested true)] |}).
Proof.
  intros H v.
  apply (@kvm_handle_wfx_nested_result H (sample_world v)).
  - reflexivity.
  - vm_compute. discriminate.
Defined.

Lemma kvm_handle_eret_forwarded_witness :
  let H := sample_collaborators true true 0 in
  let esr := mk_esr ESR_ELx_EC_ERET true 0 in
  let v := sample_vcpu 0x8000 esr HCR_NV 0 in
  kvm_handle_eret (sample_world v) =
  (1, {| w_vcpu := v; w_run := sample_run;
         w_log := [trace_kvm_nested_eret 0 0;
                   Call (c_kvm_inject_nested_sync esr)] |}).
Proof.
  intros H esr v.
  apply (@kvm_handle_eret_forwarded H (sample_world v)). reflexivity.
Defined.

Lemma kvm_handle_eret_frame_witness :
  let H := sample_collaborators true true 0 in
  let v := sample_vcpu 0x8000 (mk_esr ESR_ELx_EC_ERET true 0)
                       (Z.lor HCR_E2H HCR_TGE) 0 in
  w_run (snd (kvm_handle_eret (sample_world v))) = sample_run /\
  w_log (snd (kvm_handle_eret (sample_world v))) = [trace_kvm_nested_eret 0 0].
Proof.
  intros H v.
  destruct (@kvm_handle_eret_frame H (sample_world v) eq_refl)
    as (_ & _ & _ & _ & _ & _ & _ & _ & _ & _ & Hrun & Hlog).
  exact (conj Hrun Hlog).
Defined.

Lemma kvm_handle_eret_ends_in_el2_witness :
  let H := sample_collaborators true true 0 in
  let v :=
    {| regs_pc := 0x8000; regs_pstate := PSR_MODE_EL2h; regs_x0 := 0;
       fault_esr_el2 := mk_esr ESR_ELx_EC_ERET true 0; fault_far_el2 := 0;
       sys_HCR_EL2 := Z.lor HCR_E2H HCR_TGE; sys_CPTR_EL2 := 0;
       sreg_ELR_EL2 := 0x9000; sreg_SPSR_EL2 := Z.lor 0x3c0 PSR_MODE_EL1t;
       stat := {| hvc_exit_stat := 0; wfe_exit_stat := 0; wfi_exit_stat := 0 |};
       requests := 0; exclusive_pending := false |} in
  Z.land (regs_pstate (w_vcpu (snd (kvm_handle_eret (sample_world v)))))
         PSR_MODE_MASK = PSR_MODE_EL2t.
Proof.
  intros H v.
  apply (@kvm_handle_eret_ends_in_el2 H (sample_world v)); try reflexivity.
  vm_compute. discriminate.
Defined.

Lemma handle_exit_serror_rollback_undoes_skip_witness :
  let H := sample_collaborators true false 0 in
  let v := sample_vcpu 0x8000 (mk_esr ESR_ELx_EC_SMC32 false 0) 0 0 in
  let rolled_back := sample_vcpu 0x7ffe (mk_esr ESR_ELx_EC_SMC32 false 0) 0 0 in
  regs_pc (kvm_skip_instr (kvm_vcpu_trap_il_is32bit rolled_back) rolled_back)
  = 0x8000.
Proof.
  intros H v rolled_back.
  apply (@handle_exit_serror_rollback_undoes_skip H (2 ^ 31) (sample_world v)).
  - reflexivity.
  - reflexivity.
  - cbn. lia.
Defined.
